(** * Groq Starficient pipe: a shallow embedding of [groq-starficient-pipe.py]

    The module exports one class, [Pipe], that adapts Groq's
    OpenAI-compatible REST API to Open WebUI's plug-in interface.  The
    embedding follows the source method by method:

    - Python values are the inductive [pyval] (the JSON fragment of the
      language: [None], booleans, integers, strings, lists and dicts), with
      the dynamic checks of the operators the source applies to them
      ([in], [==], subscripting, iteration, [str.split], [str.join]);
    - the [requests] library is the environment: a transport function answers
      every [GET]/[POST] of the session, and the response methods the source
      calls ([raise_for_status], [json], [text], [iter_lines]) are fields and
      functions of a [response] record;
    - the adapter object, the caller's dictionaries and the log of the
      requests sent so far form the [world]; the methods are computations in
      a state-and-exception monad over it.

    Logging ([LOGGER.info], [LOGGER.warning]) is left out: it has no effect on
    the adapter, the request body or the transport. *)

From stdpp Require Import base option list strings gmap pretty.
From Stdlib Require Import ZArith Lia Ascii.

Set Warnings "-register-all".
Local Open Scope Z_scope.

(** ** Strings *)

Module Str.

(** The newline character of the source's ["\n"]. *)
Definition nl : string := String (Ascii.ascii_of_nat 10) EmptyString.

(** [x in s] on two strings: [x] occurs in [s] as a contiguous substring
    (byte-wise, hence case-sensitive). *)
Fixpoint contains (x s : string) : bool :=
  String.prefix x s ||
  match s with
  | EmptyString => false
  | String _ t => contains x t
  end.

(** The position of the first occurrence of the character [c]: the text
    before it and the text after it. *)
Fixpoint split_at_first (c : ascii) (s : string) : option (string * string) :=
  match s with
  | EmptyString => None
  | String a t =>
      if Ascii.eqb a c then Some (EmptyString, t)
      else match split_at_first c t with
           | Some (p, q) => Some (String a p, q)
           | None => None
           end
  end.

(** [s.split(c, 1)] for a one-character separator. *)
Definition split1 (c : ascii) (s : string) : list string :=
  match split_at_first c s with
  | Some (p, q) => [p; q]
  | None => [s]
  end.

(** [sep.join(l)] on a list of strings. *)
Fixpoint join (sep : string) (l : list string) : string :=
  match l with
  | [] => EmptyString
  | [x] => x
  | x :: t => x +:+ sep +:+ join sep t
  end.

(** The one-character strings a Python string yields when iterated. *)
Fixpoint chars (s : string) : list string :=
  match s with
  | EmptyString => []
  | String a t => String a EmptyString :: chars t
  end.

End Str.

(** ** Exceptions and results *)

(** The exception classes that matter to the control flow of the source:
    the built-in errors of the dynamic checks, [requests.exceptions.HTTPError]
    (raised by [raise_for_status] only) and every other exception of the
    [requests] library (connection errors, timeouts, JSON decode errors),
    each with the text [str(exc)] gives. *)
Inductive exn : Type :=
| TypeError
| AttributeError
| KeyError
| IndexError
| HTTPError (msg : string)
| RequestException (msg : string).

Inductive result (A : Type) : Type :=
| Ok (a : A)
| Raise (e : exn).
Arguments Ok {A} a.
Arguments Raise {A} e.

Definition rbind {A B} (r : result A) (k : A -> result B) : result B :=
  match r with
  | Ok a => k a
  | Raise e => Raise e
  end.

Fixpoint rmap {A B} (f : A -> result B) (l : list A) : result (list B) :=
  match l with
  | [] => Ok []
  | a :: t => rbind (f a) (fun b => rbind (rmap f t) (fun bs => Ok (b :: bs)))
  end.

Fixpoint rfilter {A} (f : A -> result bool) (l : list A) : result (list A) :=
  match l with
  | [] => Ok []
  | a :: t =>
      rbind (f a) (fun keep =>
      rbind (rfilter f t) (fun rest => Ok (if keep then a :: rest else rest)))
  end.

(** ** Python values *)

(** The values a request body and a JSON response are made of.  A dict is
    kept as its list of items in insertion order, with distinct keys. *)
Inductive pyval : Type :=
| PyNone
| PyBool (b : bool)
| PyInt (z : Z)
| PyStr (s : string)
| PyList (l : list pyval)
| PyDict (d : list (string * pyval)).

Module Py.

(** [d.get(k)] on the items of a dict. *)
Fixpoint assoc {A} (k : string) (d : list (string * A)) : option A :=
  match d with
  | [] => None
  | (k', v) :: t => if String.eqb k k' then Some v else assoc k t
  end.

(** [a == b].  A boolean compares as the integer 0 or 1; two lists are equal
    when they are equal element by element; two dicts are equal when they
    have as many items and every item of the first is in the second; values
    of different types are unequal. *)
Fixpoint eq (a b : pyval) {struct a} : bool :=
  let num (v : pyval) : option Z :=
    match v with
    | PyBool c => Some (if c then 1 else 0)
    | PyInt z => Some z
    | _ => None
    end in
  match a, b with
  | PyNone, PyNone => true
  | PyBool _, _ | PyInt _, _ =>
      match num a, num b with
      | Some x, Some y => Z.eqb x y
      | _, _ => false
      end
  | PyStr s, PyStr t => String.eqb s t
  | PyList l, PyList m =>
      (fix eq_list (l : list pyval) (m : list pyval) {struct l} : bool :=
         match l, m with
         | [], [] => true
         | x :: l', y :: m' => eq x y && eq_list l' m'
         | _, _ => false
         end) l m
  | PyDict d, PyDict e =>
      Nat.eqb (length d) (length e) &&
      (fix eq_items (d : list (string * pyval)) {struct d} : bool :=
         match d with
         | [] => true
         | (k, v) :: d' =>
             match assoc k e with
             | Some w => eq v w
             | None => false
             end && eq_items d'
         end) d
  | _, _ => false
  end.

(** [x in m] for a string [x]: substring test on a string, membership on a
    list, key membership on a dict, [TypeError] on a value that is not a
    container. *)
Definition contains (x : string) (m : pyval) : result bool :=
  match m with
  | PyStr s => Ok (Str.contains x s)
  | PyList l => Ok (existsb (eq (PyStr x)) l)
  | PyDict d => Ok (bool_decide (is_Some (assoc x d)))
  | PyNone | PyBool _ | PyInt _ => Raise TypeError
  end.

(** [v in l] on a list [l]. *)
Definition list_contains (l : list pyval) (v : pyval) : bool :=
  existsb (fun x => eq x v) l.

(** [m[k]] for a string key [k]: the value of the key in a dict ([KeyError]
    when absent); a string or a list takes no string index and the other
    values are not subscriptable ([TypeError]). *)
Definition getitem (m : pyval) (k : string) : result pyval :=
  match m with
  | PyDict d =>
      match assoc k d with
      | Some v => Ok v
      | None => Raise KeyError
      end
  | _ => Raise TypeError
  end.

(** [v.get(k, dflt)]: only a dict has the method. *)
Definition get (v : pyval) (k : string) (dflt : pyval) : result pyval :=
  match v with
  | PyDict d => Ok (default dflt (assoc k d))
  | _ => Raise AttributeError
  end.

(** The values [for m in v] ranges over: the elements of a list, the
    characters of a string, the keys of a dict. *)
Definition iter (v : pyval) : result (list pyval) :=
  match v with
  | PyList l => Ok l
  | PyStr s => Ok (PyStr <$> Str.chars s)
  | PyDict d => Ok ((fun kv => PyStr kv.1) <$> d)
  | PyNone | PyBool _ | PyInt _ => Raise TypeError
  end.

(** [v.split(".", 1)]: only a string has the method. *)
Definition split_dot_1 (v : pyval) : result (list pyval) :=
  match v with
  | PyStr s => Ok (PyStr <$> Str.split1 "." s)
  | _ => Raise AttributeError
  end.

(** [l[i]] on a list. *)
Definition index {A} (l : list A) (i : nat) : result A :=
  match l !! i with
  | Some x => Ok x
  | None => Raise IndexError
  end.

(** [sep.join(l)]: every item must be a string. *)
Definition join (sep : string) (l : list pyval) : result string :=
  rbind (rmap (fun v => match v with PyStr s => Ok s | _ => Raise TypeError end) l)
        (fun ss => Ok (Str.join sep ss)).

(** [bool(v)]. *)
Definition truthy (v : pyval) : bool :=
  match v with
  | PyNone => false
  | PyBool b => b
  | PyInt z => negb (Z.eqb z 0)
  | PyStr s => negb (String.eqb s EmptyString)
  | PyList l => negb (Nat.eqb (length l) 0)
  | PyDict d => negb (Nat.eqb (length d) 0)
  end.

End Py.

(** ** The [requests] library, as far as the source uses it *)

Module Requests.

(** What a call into the library gives: a value, or an exception of the
    library other than [HTTPError] (a connection error, a timeout, a decode
    error) with its text. *)
Inductive outcome (A : Type) : Type :=
| Returned (a : A)
| Failed (msg : string).
Arguments Returned {A} a.
Arguments Failed {A} msg.

(** A response object: the attributes and the results of the methods the
    source reads.  [text] can fail on a streamed response, whose body is
    read from the connection only when the attribute is first accessed. *)
Record response : Type := {
  status_code : Z;
  reason : string;
  url : string;
  text : outcome string;
  json : outcome pyval;
  iter_lines : list string
}.

(** [response.raise_for_status()]: [Some msg] when it raises
    [HTTPError(msg)], which the library does for the 4xx and 5xx codes. *)
Definition raise_for_status (r : response) : option string :=
  if (400 <=? status_code r) && (status_code r <? 500) then
    Some (pretty (status_code r) +:+ " Client Error: " +:+ reason r
          +:+ " for url: " +:+ url r)
  else if (500 <=? status_code r) && (status_code r <? 600) then
    Some (pretty (status_code r) +:+ " Server Error: " +:+ reason r
          +:+ " for url: " +:+ url r)
  else None.

(** The requests a session sends. *)
Inductive request : Type :=
| GET (url : string) (headers : list (string * string)) (timeout : Z)
| POST (url : string) (json : gmap string pyval)
       (headers : list (string * string)) (stream : bool) (timeout : Z).

Definition is_get (rq : request) : bool :=
  match rq with GET _ _ _ => true | POST _ _ _ _ _ => false end.

Definition is_post (rq : request) : bool :=
  match rq with GET _ _ _ => false | POST _ _ _ _ _ => true end.

End Requests.
Import Requests.

(** ** Configuration constants *)

Definition API_BASE_URL : string := "https://api.groq.com/openai/v1".
Definition REQUEST_TIMEOUT : Z := 60.
Definition EXCLUDE_SUBSTRINGS : list string := ["tts"; "whisper"].

(** ** The adapter and its world *)

(** The fields of a [Pipe] instance.  [API_KEY] is [self.valves.API_KEY];
    the session object has no field of its own here, its requests are
    recorded in the world. *)
Record Pipe : Type := {
  self_type : string;
  self_id : string;
  self_name : string;
  base_url : string;
  API_KEY : string;
  _model_cache : option (list pyval)
}.

(** A reference to a dict object of the caller. *)
Abbreviation ref := positive.
Abbreviation dict := (gmap string pyval).

(** The adapter, the dict objects of the caller (a reference that was never
    allocated reads as the empty dict) and the requests sent so far, oldest
    first. *)
Record world : Type := {
  self : Pipe;
  heap : gmap ref dict;
  sent : list request
}.

(** The world with the cache set, with one more request sent, with a dict
    object replaced. *)
Definition set_cache_field (c : option (list pyval)) (p : Pipe) : Pipe :=
  {| self_type := self_type p; self_id := self_id p; self_name := self_name p;
     base_url := base_url p; API_KEY := API_KEY p; _model_cache := c |}.

Definition with_cache (l : list pyval) (w : world) : world :=
  {| self := set_cache_field (Some l) (self w); heap := heap w; sent := sent w |}.

Definition with_sent (rq : request) (w : world) : world :=
  {| self := self w; heap := heap w; sent := sent w ++ [rq] |}.

Definition with_dict (body : ref) (d : dict) (w : world) : world :=
  {| self := self w; heap := <[body := d]> (heap w); sent := sent w |}.

(** [Pipe.__init__], with the value of [os.getenv("GROQ_API_KEY", "")]. *)
Definition __init__ (key : string) : Pipe :=
  {| self_type := "manifold"; self_id := "groq"; self_name := "groq/";
     base_url := API_BASE_URL; API_KEY := key; _model_cache := None |}.

Definition fresh (key : string) (h : gmap ref dict) : world :=
  {| self := __init__ key; heap := h; sent := [] |}.

(** ** The monad of the methods: state and exceptions *)

Definition M (A : Type) : Type := world -> result A * world.

#[global] Instance M_ret : MRet M := fun A a w => (Ok a, w).

#[global] Instance M_bind : MBind M := fun A B k m w =>
  match m w with
  | (Ok a, w') => k a w'
  | (Raise e, w') => (Raise e, w')
  end.

Definition raise {A} (e : exn) : M A := fun w => (Raise e, w).

Definition lift {A} (r : result A) : M A := fun w => (r, w).

(** [try: m  except Exception as exc: h exc]. *)
Definition try_except {A} (m : M A) (h : exn -> M A) : M A := fun w =>
  match m w with
  | (Ok a, w') => (Ok a, w')
  | (Raise e, w') => h e w'
  end.

Definition get_self : M Pipe := fun w => (Ok (self w), w).

Definition set_model_cache (l : list pyval) : M unit := fun w =>
  (Ok tt, with_cache l w).

(** [k in body], [body[k]], [body[k] = v] and the content of [body], on the
    dict object [body] refers to. *)
Definition dict_has (body : ref) (k : string) : M bool := fun w =>
  (Ok (bool_decide (is_Some ((heap w !!! body) !! k))), w).

Definition dict_getitem (body : ref) (k : string) : M pyval := fun w =>
  match (heap w !!! body) !! k with
  | Some v => (Ok v, w)
  | None => (Raise KeyError, w)
  end.

Definition dict_setitem (body : ref) (k : string) (v : pyval) : M unit := fun w =>
  (Ok tt, with_dict body (<[k := v]> (heap w !!! body)) w).

Definition dict_content (body : ref) : M dict := fun w =>
  (Ok (heap w !!! body), w).

(** ** The methods of [Pipe] *)

(** [_hardcoded_models]: the hand-curated list of models. *)
Definition _hardcoded_models : list string :=
  [ "allam-2-7b";
    "compound-beta";
    "compound-beta-mini";
    "deepseek-r1-distill-llama-70b";
    "gemma2-9b-it";
    "llama-3.1-8b-instant";
    "llama-3.3-70b-versatile";
    "llama3-70b-8192";
    "llama3-8b-8192";
    "openai/gpt-oss-20b";
    "openai/gpt-oss-120b";
    "meta-llama/llama-guard-4-12b";
    "meta-llama/llama-prompt-guard-2-22m";
    "meta-llama/llama-prompt-guard-2-86m";
    "meta-llama/llama-4-maverick-17b-128e-instruct";
    "meta-llama/llama-4-scout-17b-16e-instruct";
    "mistral-saba-24b";
    "moonshotai/kimi-k2-instruct";
    "qwen/qwen3-32b" ].

(** [any(f(x) for x in l)]: stops at the first true item. *)
Fixpoint py_any {A} (f : A -> result bool) (l : list A) : result bool :=
  match l with
  | [] => Ok false
  | x :: t => rbind (f x) (fun b => if b then Ok true else py_any f t)
  end.

(** [[m for m in models if not any(x in m for x in EXCLUDE_SUBSTRINGS)]]. *)
Definition exposed (models : list pyval) : result (list pyval) :=
  rfilter (fun m => rbind (py_any (fun x => Py.contains x m) EXCLUDE_SUBSTRINGS)
                          (fun b => Ok (negb b)))
          models.

(** The three results of [pipe]: an error message, the parsed JSON response,
    or the iterator over the lines of a streamed response (given by the
    lines it yields). *)
Inductive reply : Type :=
| Message (s : string)
| Json (v : pyval)
| Lines (l : list string).

(** The f-string rendering of a value: a string is itself, any other value
    is rendered by the interpreter's [repr]. *)
Definition render (repr : pyval -> string) (v : pyval) : string :=
  match v with
  | PyStr s => s
  | _ => repr v
  end.

Definition bearer (key : string) : string * string :=
  ("Authorization", "Bearer " +:+ key).

Definition chat_headers (key : string) : list (string * string) :=
  [bearer key; ("Content-Type", "application/json")].

Definition validation_message : string :=
  "Error: request body must contain 'model' and 'stream'.".

Definition credential_message : string :=
  "Error: GROQ_API_KEY environment variable not set.".

Definition hint_404 : string := "(404 usually means an unknown model id.)".

Section Adapter.

(** The network: the answer to a request, given the requests sent before. *)
Variable transport : list request -> request -> outcome response.

(** The interpreter's [repr] of a value. *)
Variable repr : pyval -> string.

(** [self._session.get] and [self._session.post]: the request is recorded
    and the transport answers it. *)
Definition session_send (rq : request) : M (outcome response) := fun w =>
  (Ok (transport (sent w) rq), with_sent rq w).

Definition session_get (url : string) (headers : list (string * string))
    (timeout : Z) : M response :=
  o ← session_send (GET url headers timeout);
  match o with
  | Returned r => mret r
  | Failed msg => raise (RequestException msg)
  end.

(** The [try] block of [_fetch_models_once] after the GET: from the response
    to the models to cache. *)
Definition listed_models (response : response) : result (list pyval) :=
  rbind (match raise_for_status response with
         | Some msg => Raise (HTTPError msg)
         | None => Ok tt
         end) (fun _ =>
  rbind (match json response with
         | Returned v => Ok v
         | Failed msg => Raise (RequestException msg)
         end) (fun body =>
  rbind (Py.get body "data" (PyList [])) (fun data =>
  rbind (Py.iter data) (fun entries =>
  rbind (rmap (fun m => Py.getitem m "id") entries) (fun remote_models =>
  exposed remote_models))))).

(** [_fetch_models_once].  Each branch of the [try] assigns the cache last,
    so the closing [return self._model_cache] returns the list the branch
    has just assigned. *)
Definition _fetch_models_once : M (list pyval) :=
  this ← get_self;
  match _model_cache this with
  | Some cached => mret cached
  | None =>
      try_except
        (response ← session_get (base_url this +:+ "/models")
                                [bearer (API_KEY this)] REQUEST_TIMEOUT;
         kept ← lift (listed_models response);
         set_model_cache kept;;
         mret kept)
        (fun exc =>
           kept ← lift (exposed (PyStr <$> _hardcoded_models));
           set_model_cache kept;;
           mret kept)
  end.

(** [pipes]: the model list as [{id, name}] items. *)
Definition pipes : M (list (list (string * pyval))) :=
  models ← _fetch_models_once;
  mret ((fun m => [("id", m); ("name", m)]) <$> models).

(** [pipe], "strip any '<prefix>.' that WebUI adds". *)
Definition strip_prefix (body : ref) : M unit :=
  m ← dict_getitem body "model";
  dotted ← lift (Py.contains "." m);
  if dotted : bool then
    m' ← dict_getitem body "model";
    parts ← lift (Py.split_dot_1 m');
    tail ← lift (Py.index parts 1);
    dict_setitem body "model" tail
  else mret tt.

(** [pipe], "perform request".  In the [try] block only the POST,
    [raise_for_status], the reads of [body["stream"]] and [response.json()]
    can raise; the two [except] clauses are the branches of the matches on
    their results.  A [KeyError] there would be caught by [except Exception]
    and rendered as the quoted key.  In the [HTTPError] clause the read of
    [response.text] is outside any [try]: when it fails the exception leaves
    [pipe]. *)
Definition perform_request (this : Pipe) (body : ref) : M reply :=
  let url := base_url this +:+ "/chat/completions" in
  let headers := chat_headers (API_KEY this) in
  let unhandled (exc : string) := Message ("Unhandled error: " +:+ exc) in
  payload ← dict_content body;
  match payload !! "stream" with
  | None => mret (unhandled "'stream'")
  | Some stream =>
  o ← session_send (POST url payload headers (Py.truthy stream) REQUEST_TIMEOUT);
  match o with
  | Failed exc => mret (unhandled exc)
  | Returned response =>
  match raise_for_status response with
  | Some exc =>
      match text response with
      | Failed e => raise (RequestException e)
      | Returned body_text =>
          let msg := "HTTP " +:+ pretty (status_code response) +:+ " calling "
                     +:+ url +:+ ": " +:+ exc +:+ Str.nl +:+ body_text in
          mret (Message (if status_code response =? 404
                         then msg +:+ Str.nl +:+ hint_404 else msg))
      end
  | None =>
      payload' ← dict_content body;
      match payload' !! "stream" with
      | None => mret (unhandled "'stream'")
      | Some stream' =>
          if Py.truthy stream' then mret (Lines (iter_lines response))
          else match json response with
               | Returned v => mret (Json v)
               | Failed exc => mret (unhandled exc)
               end
      end
  end
  end
  end.

Definition pipe (body : ref) : M reply :=
  has_model ← dict_has body "model";
  has_stream ← dict_has body "stream";
  if negb has_model || negb has_stream then mret (Message validation_message)
  else
  this ← get_self;
  if String.eqb (API_KEY this) "" then mret (Message credential_message)
  else
  strip_prefix body;;
  model_name ← dict_getitem body "model";
  allowed_models ← _fetch_models_once;
  if negb (Py.list_contains allowed_models model_name) then
    joined ← lift (Py.join ", " allowed_models);
    mret (Message ("Error: model '" +:+ render repr model_name
                   +:+ "' is not supported." +:+ Str.nl
                   +:+ "Valid models: " +:+ joined))
  else perform_request this body.

(** The calls the host makes on the adapter, and a host-side assignment to
    one of its dict objects in between. *)
Inductive call : Type :=
| CallPipes
| CallPipe (body : ref)
| CallFetch
| HostAssign (body : ref) (d : dict).

Definition step (w : world) (c : call) : world :=
  match c with
  | CallPipes => (pipes w).2
  | CallPipe body => (pipe body w).2
  | CallFetch => (_fetch_models_once w).2
  | HostAssign body d => with_dict body d w
  end.

Definition run (cs : list call) (w : world) : world := foldl step w cs.

End Adapter.

(** ** Notions the properties are stated with *)

(** The model id once the prefix is stripped: the text after the first dot,
    or the id itself when it has no dot. *)
Definition normalized (m : string) : string :=
  match Str.split_at_first "." m with
  | Some (_, q) => q
  | None => m
  end.

(** The filtering rule on ids: an id is exposed when it contains neither
    ["tts"] nor ["whisper"]. *)
Definition is_exposed (id : string) : bool :=
  negb (Str.contains "tts" id) && negb (Str.contains "whisper" id).

(** The GET and the POST the adapter sends. *)
Definition models_request (this : Pipe) : request :=
  GET (base_url this +:+ "/models") [bearer (API_KEY this)] REQUEST_TIMEOUT.

Definition chat_url (this : Pipe) : string :=
  base_url this +:+ "/chat/completions".

Definition chat_request (this : Pipe) (payload : dict) (stream : pyval) : request :=
  POST (chat_url this) payload (chat_headers (API_KEY this))
       (Py.truthy stream) REQUEST_TIMEOUT.

(** The number of [GET /models] requests sent so far. *)
Definition fetches (w : world) : nat := length (List.filter is_get (sent w)).

(** The POST requests sent so far. *)
Definition posts (w : world) : list request := List.filter is_post (sent w).

(** The fallback of [_fetch_models_once] before the filtering rule is
    applied to it. *)
Definition fallback : list pyval := PyStr <$> _hardcoded_models.

(** What [_fetch_models_once] caches, given the answer to its GET: the
    models the [try] block lists, or the fallback when the block raises. *)
Definition resolved (o : outcome response) : list pyval :=
  match o with
  | Returned r =>
      match listed_models r with
      | Ok l => l
      | Raise _ => fallback
      end
  | Failed _ => fallback
  end.

(** A computation keeps a relation between the world before and after it,
    whatever it returns or raises. *)
Definition preserves {A} (R : relation world) (m : M A) : Prop :=
  forall w, R w (m w).2.

(** The frame of [pipe] on the dict object [body]: every key but ["model"]
    keeps its value, the other dict objects are untouched, and every request
    sent meanwhile carries these values. *)
Definition passes_through (body : ref) (w w' : world) : Prop :=
  (forall k, k <> "model" -> (heap w' !!! body) !! k = (heap w !!! body) !! k) /\
  (forall l, l <> body -> heap w' !! l = heap w !! l) /\
  exists new, sent w' = sent w ++ new /\
    forall u j h s t, POST u j h s t ∈ new ->
      forall k, k <> "model" -> j !! k = (heap w !!! body) !! k.

(** The cache discipline: a populated cache stays as it is and no GET is
    sent; an empty cache is populated by at most one GET. *)
Definition keeps_cache (w w' : world) : Prop :=
  match _model_cache (self w) with
  | Some l => _model_cache (self w') = Some l /\ fetches w' = fetches w
  | None =>
      (fetches w' <= S (fetches w))%nat /\
      (_model_cache (self w') = None -> fetches w' = fetches w)
  end.

(** Nothing but requests: the adapter and the dict objects are as before and
    no GET is sent. *)
Definition only_posts (w w' : world) : Prop :=
  self w' = self w /\ heap w' = heap w /\ fetches w' = fetches w.

(** The ways the [try] block of [_fetch_models_once] fails: the GET raises
    (network error, timeout), the status is an error status (4xx or 5xx), the
    body does not decode as JSON, or listing the ids in it raises. *)
Inductive fetch_failure : outcome response -> Prop :=
| transport_failure (msg : string) : fetch_failure (Failed msg)
| error_status (r : response) :
    400 <= status_code r < 600 -> fetch_failure (Returned r)
| undecodable_body (r : response) (msg : string) :
    json r = Failed msg -> fetch_failure (Returned r)
| unlistable_body (r : response) (e : exn) :
    listed_models r = Raise e -> fetch_failure (Returned r).

(** An entry of the ["data"] array with the string [id] under ["id"]. *)
Definition entry_with_id (entry : pyval) (id : string) : Prop :=
  exists fields, entry = PyDict fields /\ Py.assoc "id" fields = Some (PyStr id).

(** [x] occurs in [s]. *)
Definition occurs (x s : string) : Prop :=
  exists pre post, s = pre +:+ x +:+ post.

(** ** Sample inputs *)

Module Sample.

Definition key : string := "gsk_demo".

Definition body : ref := 1%positive.

(** A stand-in for the interpreter's [repr]. *)
Definition repr : pyval -> string := fun _ => "<value>".

(** The demo request of the source's self-test. *)
Definition demo_request : dict :=
  {[ "model" := PyStr "groq_new.moonshotai/kimi-k2-instruct";
     "messages" := PyList [PyDict [("role", PyStr "user");
                                   ("content", PyStr "Hello from demo!")]];
     "stream" := PyBool false ]}.

(** A request for a given model value, and one without the ["stream"] key. *)
Definition request_for (model : pyval) : dict :=
  {[ "model" := model;
     "messages" := PyList [PyDict [("role", PyStr "user"); ("content", PyStr "Hi")]];
     "stream" := PyBool false ]}.

Definition request_without_stream : dict :=
  {[ "model" := PyStr "llama3-8b-8192" ]}.

(** A fresh adapter whose caller holds the dict [d]. *)
Definition calling (d : dict) : world := fresh key {[ body := d ]}.

(** An adapter whose cache holds the single model of the spec's example. *)
Definition cached (d : dict) : world :=
  with_cache [PyStr "llama3-8b-8192"] (calling d).

Definition answer (status : Z) (reason : string) (text : string)
    (json : outcome pyval) : response :=
  {| status_code := status; reason := reason;
     url := "https://api.groq.com/openai/v1/"; text := Returned text;
     json := json; iter_lines := [] |}.

(** The JSON of a model listing. *)
Definition listing (ids : list string) : pyval :=
  PyDict [("object", PyStr "list");
          ("data", PyList ((fun id => PyDict [("id", PyStr id);
                                              ("object", PyStr "model")]) <$> ids))].

Definition remote_ids : list string :=
  ["llama3-8b-8192"; "whisper-large-v3"; "playai-tts"; "TTS-upper"; "qwen/qwen3-32b"].

(** Transports: no network at all; a provider that lists [remote_ids] and
    answers every chat request with [chat]; a provider whose listing comes
    with status 300. *)
Definition offline : list request -> request -> outcome response :=
  fun _ _ => Failed "Connection refused".

Definition serving (chat : response) : list request -> request -> outcome response :=
  fun _ rq =>
    match rq with
    | GET _ _ _ => Returned (answer 200 "OK" "" (Returned (listing remote_ids)))
    | POST _ _ _ _ _ => Returned chat
    end.

Definition multiple_choices : list request -> request -> outcome response :=
  fun _ _ => Returned (answer 300 "Multiple Choices" ""
                              (Returned (listing ["llama3-8b-8192"]))).

Definition not_found : response :=
  answer 404 "Not Found" "{}" (Returned (PyDict [])).

(** A completion, and a provider whose listing is the empty JSON object. *)
Definition completion : response :=
  answer 200 "OK" "" (Returned (PyDict [("id", PyStr "x")])).

Definition empty_object : list request -> request -> outcome response :=
  fun _ _ => Returned (answer 200 "OK" "{}" (Returned (PyDict []))).

(** A streamed error response whose body cannot be read from the
    connection, and the streaming request for a listed model. *)
Definition broken_stream : response :=
  {| status_code := 500; reason := "Internal Server Error";
     url := "https://api.groq.com/openai/v1/chat/completions";
     text := Failed "Connection broken: IncompleteRead";
     json := Failed "Connection broken: IncompleteRead";
     iter_lines := [] |}.

Definition streaming_request : dict :=
  {[ "model" := PyStr "llama3-8b-8192"; "stream" := PyBool true ]}.

End Sample.

(** What the claims say where the code differs. *)

(** C3 as stated: a fetch fails when the GET raises, the status is not 2xx
    or the body does not decode, and every failed fetch gives the filtered
    fallback. *)
Definition fails_as_stated (o : outcome response) : Prop :=
  match o with
  | Failed _ => True
  | Returned r => ~ (200 <= status_code r < 300) \/ exists msg, json r = Failed msg
  end.

Definition fallback_on_every_failure : Prop :=
  forall (transport : list request -> request -> outcome response) (w : world),
    _model_cache (self w) = None ->
    fails_as_stated (transport (sent w) (models_request (self w))) ->
    (_fetch_models_once transport w).1
    = Ok (PyStr <$> List.filter is_exposed _hardcoded_models).


(** ** Notions for the properties of the whole adapter *)

(** The items [pipes] makes of a model list. *)
Definition items (l : list pyval) : list (list (string * pyval)) :=
  (fun m => [("id", m); ("name", m)]) <$> l.

(** Only dict objects are written: the adapter and the requests sent are as
    before. *)
Definition only_writes (w w' : world) : Prop :=
  self w' = self w /\ sent w' = sent w.

(** The adapter after a fetch that populated the cache from the answer to
    its GET. *)
Definition populated (w : world) (transport : list request -> request -> outcome response)
    : Pipe :=
  set_cache_field
    (Some (resolved (transport (sent w) (models_request (self w))))) (self w).

(** No string of the list contains an excluded substring. *)
Definition withholds_excluded (l : list pyval) : Prop :=
  forall id, PyStr id ∈ l -> is_exposed id = true.

(** The two requests of an adapter configured with [key]: the model listing
    and a chat completion, both against [API_BASE_URL], with the bearer
    token and the fixed timeout. *)
Definition groq_request (key : string) (rq : request) : Prop :=
  rq = GET (API_BASE_URL +:+ "/models") [("Authorization", "Bearer " +:+ key)] 60 \/
  exists payload stream,
    rq = POST (API_BASE_URL +:+ "/chat/completions") payload
              [("Authorization", "Bearer " +:+ key);
               ("Content-Type", "application/json")] stream 60.

(** The configuration of [__init__] with [key], and the invariant of the
    worlds a fresh adapter reaches. *)
Definition configured (key : string) (this : Pipe) : Prop :=
  base_url this = API_BASE_URL /\ API_KEY this = key.

Definition well_addressed (key : string) (w : world) : Prop :=
  configured key (self w) /\
  (forall l, _model_cache (self w) = Some l -> withholds_excluded l) /\
  forall rq, rq ∈ sent w -> groq_request key rq.

(** On the dict object [body] no key is added or removed, and the other
    dict objects are untouched. *)
Definition keeps_keys (body : ref) (w w' : world) : Prop :=
  delete body (heap w') = delete body (heap w) /\
  (dom (heap w' !!! body) : gset string) = dom (heap w !!! body).

Module Sample2.

(** A request whose id has two dots, and a listing that holds both of its
    tails. *)
Definition twice_dotted : dict :=
  {[ "model" := PyStr "groq.llama-3.1-8b-instant"; "stream" := PyBool false ]}.

(** A network that is down for the first request and serves afterwards. *)
Definition recovering : list request -> request -> outcome response :=
  fun history rq =>
    match history with
    | [] => Failed "Connection refused"
    | _ => Sample.serving Sample.completion history rq
    end.

(** A response whose body is not JSON. *)
Definition garbled : response :=
  Sample.answer 200 "OK" "<html>" (Failed "Expecting value: line 1 column 1 (char 0)").

End Sample2.

(** * Properties *)

(** ** Facts about strings *)

Module StrFacts.

Lemma app_nil_r (s : string) : s +:+ "" = s.
Proof. induction s as [|a s IH]; [done|]. unfold String.app; fold String.app. by rewrite IH. Qed.

Lemma app_cons (a : ascii) (s t : string) : String a s +:+ t = String a (s +:+ t).
Proof. done. Qed.

Lemma app_assoc (s t u : string) : (s +:+ t) +:+ u = s +:+ t +:+ u.
Proof.
  induction s as [|a s IH]; [done|].
  by rewrite !app_cons, IH.
Qed.

Lemma prefix_spec (x s : string) :
  String.prefix x s = true <-> exists post, s = x +:+ post.
Proof.
  revert s. induction x as [|a x IH]; intros s.
  - destruct s; simpl; split; eauto.
  - destruct s as [|b s]; simpl.
    + split; [done|]. intros [post H]. by rewrite app_cons in H.
    + destruct (ascii_dec a b) as [->|Hne].
      * rewrite IH. split; intros [post H]; exists post.
        -- by rewrite app_cons, H.
        -- rewrite app_cons in H. by injection H.
      * split; [done|]. intros [post H]. rewrite app_cons in H.
        injection H as H1 _. by destruct Hne.
Qed.

(** [Str.contains x s] holds exactly when [x] occurs in [s]. *)
Lemma contains_spec (x s : string) :
  Str.contains x s = true <-> exists pre post, s = pre +:+ x +:+ post.
Proof.
  induction s as [|a s IH].
  - change (Str.contains x "") with (String.prefix x "" || false).
    rewrite orb_false_r, prefix_spec. split.
    + intros [post H]. by exists "", post.
    + intros [[|b pre] [post H]]; [by exists post|by rewrite app_cons in H].
  - change (Str.contains x (String a s))
      with (String.prefix x (String a s) || Str.contains x s).
    rewrite orb_true_iff, prefix_spec, IH. split.
    + intros [[post H]|(pre & post & H)].
      * by exists "", post.
      * exists (String a pre), post. by rewrite app_cons, H.
    + intros ([|b pre] & post & H).
      * left. by exists post.
      * right. rewrite app_cons in H. injection H as _ H. by exists pre, post.
Qed.

Lemma contains_here (x post : string) : Str.contains x (x +:+ post) = true.
Proof. apply contains_spec. by exists "", post. Qed.

Lemma contains_self (x : string) : Str.contains x x = true.
Proof. apply contains_spec. exists "", "". by rewrite app_nil_r. Qed.

Lemma contains_app_r (x a b : string) :
  Str.contains x b = true -> Str.contains x (a +:+ b) = true.
Proof.
  rewrite !contains_spec. intros (pre & post & ->).
  exists (a +:+ pre), post. by rewrite app_assoc.
Qed.

Lemma contains_app_l (x a b : string) :
  Str.contains x a = true -> Str.contains x (a +:+ b) = true.
Proof.
  rewrite !contains_spec. intros (pre & post & ->).
  exists pre, (post +:+ b). by rewrite !app_assoc.
Qed.

Lemma contains_char_cons (c a : ascii) (s : string) :
  Str.contains (String c "") (String a s)
  = Ascii.eqb c a || Str.contains (String c "") s.
Proof.
  change (Str.contains (String c "") (String a s))
    with (String.prefix (String c "") (String a s) || Str.contains (String c "") s).
  f_equal. simpl.
  destruct (Ascii.eqb_spec c a) as [->|Hne].
  - destruct (ascii_dec a a); [by destruct s|done].
  - by destruct (ascii_dec c a).
Qed.

(** [split_at_first] cuts at the first occurrence of the character. *)
Lemma split_at_first_Some (c : ascii) (s p q : string) :
  Str.split_at_first c s = Some (p, q) <->
  s = p +:+ String c q /\ Str.contains (String c "") p = false.
Proof.
  revert p. induction s as [|a s IH]; intros p; simpl.
  - split; [done|]. intros [H _]. by destruct p.
  - destruct (Ascii.eqb_spec a c) as [->|Hne].
    + split.
      * by intros [= <- <-].
      * intros [H Hp]. destruct p as [|b p]; [by injection H as ->|].
        rewrite app_cons in H. injection H as <- _.
        rewrite contains_char_cons, Ascii.eqb_refl in Hp. done.
    + destruct (Str.split_at_first c s) as [[p' q']|] eqn:E.
      * split.
        -- intros [= <- <-]. destruct (IH p') as [[-> Hp] _]; [done|].
           split; [done|]. rewrite contains_char_cons, Hp, orb_false_r.
           apply Ascii.eqb_neq. congruence.
        -- intros [H Hp]. destruct p as [|b p].
           { injection H as H _. by destruct Hne. }
           rewrite app_cons in H. injection H as <- H.
           rewrite contains_char_cons in Hp. apply orb_false_iff in Hp as [_ Hp].
           assert (Some (p', q') = Some (p, q)) as E' by by apply IH.
           by injection E' as -> ->.
      * split; [done|]. intros [H Hp]. destruct p as [|b p].
        { injection H as H _. by destruct Hne. }
        rewrite app_cons in H. injection H as <- H.
        rewrite contains_char_cons in Hp. apply orb_false_iff in Hp as [_ Hp].
        assert (None = Some (p, q)) as E' by by apply IH.
        done.
Qed.

Lemma split_at_first_None (c : ascii) (s : string) :
  Str.split_at_first c s = None <-> Str.contains (String c "") s = false.
Proof.
  induction s as [|a s IH]; [done|].
  rewrite contains_char_cons. simpl.
  destruct (Ascii.eqb_spec a c) as [->|Hne].
  - by rewrite Ascii.eqb_refl.
  - assert (Ascii.eqb c a = false) as -> by (apply Ascii.eqb_neq; congruence).
    simpl. rewrite <- IH.
    destruct (Str.split_at_first c s) as [[p q]|]; split; done.
Qed.

End StrFacts.

(** ** Relations kept by the computations *)

Ltac run_m :=
  unfold mbind, M_bind, mret, M_ret, lift, raise, get_self, set_model_cache,
    dict_has, dict_getitem, dict_setitem, dict_content;
  cbv beta iota.

Section Preservation.

Context (R : relation world) `{!PreOrder R}.

Lemma preserves_ret {A} (a : A) : preserves R (mret a).
Proof. intros w. run_m. simpl. reflexivity. Qed.

Lemma preserves_lift {A} (r : result A) : preserves R (lift r).
Proof. intros w. run_m. simpl. reflexivity. Qed.

Lemma preserves_raise {A} (e : exn) : preserves R (@raise A e).
Proof. intros w. run_m. simpl. reflexivity. Qed.

Lemma preserves_get_self : preserves R get_self.
Proof. intros w. run_m. simpl. reflexivity. Qed.

Lemma preserves_dict_has (body : ref) (k : string) : preserves R (dict_has body k).
Proof. intros w. run_m. simpl. reflexivity. Qed.

Lemma preserves_dict_getitem (body : ref) (k : string) :
  preserves R (dict_getitem body k).
Proof. intros w. run_m. destruct (_ !! k); simpl; reflexivity. Qed.

Lemma preserves_dict_content (body : ref) : preserves R (dict_content body).
Proof. intros w. run_m. simpl. reflexivity. Qed.

Lemma preserves_bind {A B} (m : M A) (k : A -> M B) :
  preserves R m -> (forall a, preserves R (k a)) -> preserves R (m ≫= k).
Proof.
  intros Hm Hk w. specialize (Hm w). unfold mbind, M_bind.
  destruct (m w) as [[a|e] w']; simpl in *; [|done].
  etrans; [apply Hm|apply Hk].
Qed.

Lemma preserves_try {A} (m : M A) (h : exn -> M A) :
  preserves R m -> (forall e, preserves R (h e)) -> preserves R (try_except m h).
Proof.
  intros Hm Hh w. specialize (Hm w). unfold try_except.
  destruct (m w) as [[a|e] w']; simpl in *; [done|].
  etrans; [apply Hm|apply Hh].
Qed.

End Preservation.

Ltac preserve_step :=
  first
    [ apply preserves_ret; apply _ | apply preserves_lift; apply _
    | apply preserves_raise; apply _ | apply preserves_get_self; apply _
    | apply preserves_dict_has; apply _ | apply preserves_dict_getitem; apply _
    | apply preserves_dict_content; apply _
    | apply preserves_bind; [apply _| |intros ?]
    | match goal with
      | |- preserves _ (if ?b then _ else _) => destruct b
      | |- preserves _ (match ?x with _ => _ end) => destruct x
      end ].

#[local] Instance passes_through_preorder (body : ref) : PreOrder (passes_through body).
Proof.
  split.
  - intros w. repeat split; [exists []|..]; [split|..].
    + by rewrite app_nil_r.
    + intros ????? H. by apply elem_of_nil in H.
  - intros w1 w2 w3 (Hk1 & Hl1 & new1 & Hs1 & Hp1) (Hk2 & Hl2 & new2 & Hs2 & Hp2).
    split; [|split].
    + intros k Hk. by rewrite Hk2, Hk1.
    + intros l Hl. by rewrite Hl2, Hl1.
    + exists (new1 ++ new2). split; [by rewrite Hs2, Hs1, app_assoc|].
      intros u j h s t [H|H]%elem_of_app k Hk.
      * by eapply Hp1.
      * rewrite <- Hk1 by done. by eapply Hp2.
Qed.

Lemma fetches_with_sent (rq : request) (w : world) :
  fetches (with_sent rq w) = (fetches w + if is_get rq then 1 else 0)%nat.
Proof.
  unfold fetches. simpl. rewrite List.filter_app, length_app. simpl.
  by destruct (is_get rq).
Qed.

#[local] Instance keeps_cache_preorder : PreOrder keeps_cache.
Proof.
  split.
  - intros w. unfold keeps_cache. destruct (_model_cache (self w)); auto.
  - intros w1 w2 w3. unfold keeps_cache.
    destruct (_model_cache (self w1)) as [l|].
    + intros [-> ->]. done.
    + destruct (_model_cache (self w2)) as [l|].
      * intros [H1 _] [-> ->]. split; [done|]. done.
      * intros [_ H1] [H2 H3]. rewrite H1 in * by done. done.
Qed.

#[local] Instance only_posts_preorder : PreOrder only_posts.
Proof.
  split.
  - by intros w.
  - intros w1 w2 w3 (? & ? & ?) (? & ? & ?). repeat split; congruence.
Qed.

(** ** The model list *)

Section Properties.

Context (transport : list request -> request -> outcome response).
Context (repr : pyval -> string).

Lemma exposed_strings (ids : list string) :
  exposed (PyStr <$> ids) = Ok (PyStr <$> List.filter is_exposed ids).
Proof.
  induction ids as [|id ids IH]; [done|].
  change (exposed (PyStr <$> id :: ids))
    with (rbind (rbind (py_any (fun x => Py.contains x (PyStr id)) EXCLUDE_SUBSTRINGS)
                       (fun b => Ok (negb b)))
                (fun keep => rbind (exposed (PyStr <$> ids))
                   (fun rest => Ok (if keep then PyStr id :: rest else rest)))).
  rewrite IH. simpl. unfold is_exposed.
  by destruct (Str.contains "tts" id), (Str.contains "whisper" id).
Qed.

Lemma exposed_fallback : exposed fallback = Ok fallback.
Proof. by vm_compute. Qed.

Lemma filter_hardcoded : List.filter is_exposed _hardcoded_models = _hardcoded_models.
Proof. by vm_compute. Qed.

(** A populated cache is returned as it is: no request, no change. *)
Lemma fetch_cached (w : world) (l : list pyval) :
  _model_cache (self w) = Some l ->
  _fetch_models_once transport w = (Ok l, w).
Proof.
  intros H. unfold _fetch_models_once, mbind, M_bind, get_self.
  cbv beta iota. by rewrite H.
Qed.

(** An empty cache is populated from the answer to one GET. *)
Lemma fetch_uncached (w : world) :
  _model_cache (self w) = None ->
  let l := resolved (transport (sent w) (models_request (self w))) in
  _fetch_models_once transport w
  = (Ok l, with_cache l (with_sent (models_request (self w)) w)).
Proof.
  intros H. unfold _fetch_models_once, mbind, M_bind, get_self.
  cbv beta iota. rewrite H.
  unfold try_except, session_get, session_send, mbind, M_bind, lift.
  fold fallback. rewrite exposed_fallback.
  unfold resolved. fold (models_request (self w)). cbv beta iota.
  destruct (transport _ _) as [r|msg]; [|done].
  unfold mret, M_ret, set_model_cache. cbv beta iota.
  by destruct (listed_models r).
Qed.

(** [_fetch_models_once] never raises. *)
Lemma fetch_returns (w : world) :
  exists l, (_fetch_models_once transport w).1 = Ok l
            /\ _model_cache (self (_fetch_models_once transport w).2) = Some l.
Proof.
  destruct (_model_cache (self w)) as [l|] eqn:E.
  - exists l. by rewrite (fetch_cached _ _ E).
  - eexists. by rewrite (fetch_uncached _ E).
Qed.

(** The dict objects play no part in it. *)
Lemma fetch_with_dict (w : world) (body : ref) (d : dict) :
  _fetch_models_once transport (with_dict body d w)
  = ((_fetch_models_once transport w).1,
     with_dict body d (_fetch_models_once transport w).2).
Proof.
  destruct (_model_cache (self w)) as [l|] eqn:E.
  - rewrite (fetch_cached w l E). by rewrite (fetch_cached (with_dict body d w) l).
  - rewrite (fetch_uncached w E). by rewrite (fetch_uncached (with_dict body d w)).
Qed.

(** ** What each part of [pipe] does to the world *)

(** The request part sends at most one request, the POST of the content of
    [body], and changes nothing else. *)
Lemma perform_request_world (this : Pipe) (body : ref) (w : world) :
  (perform_request transport this body w).2 = w \/
  exists stream, (heap w !!! body) !! "stream" = Some stream /\
    (perform_request transport this body w).2
    = with_sent (chat_request this (heap w !!! body) stream) w.
Proof.
  unfold perform_request, session_send. run_m.
  destruct ((heap w !!! body) !! "stream") as [stream|] eqn:E; [|by left].
  right. exists stream. split; [done|].
  fold (chat_url this). fold (chat_request this (heap w !!! body) stream).
  destruct (transport _ _) as [r|msg]; [|done].
  destruct (raise_for_status r); [by destruct (text r)|].
  simpl. rewrite E.
  destruct (Py.truthy stream); [done|]. by destruct (json r).
Qed.

Lemma perform_request_only_posts (this : Pipe) (body : ref) :
  preserves only_posts (perform_request transport this body).
Proof.
  intros w. destruct (perform_request_world this body w) as [->|(st & _ & ->)]; [done|].
  split; [done|split; [done|]]. rewrite fetches_with_sent. simpl. lia.
Qed.

Lemma only_posts_keeps_cache (w w' : world) : only_posts w w' -> keeps_cache w w'.
Proof.
  intros (Hs & _ & Hf). unfold keeps_cache. rewrite Hs, Hf.
  destruct (_model_cache (self w)); auto.
Qed.

Lemma perform_request_keeps_cache (this : Pipe) (body : ref) :
  preserves keeps_cache (perform_request transport this body).
Proof. intros w. apply only_posts_keeps_cache, perform_request_only_posts. Qed.

Lemma perform_request_passes_through (this : Pipe) (body : ref) :
  preserves (passes_through body) (perform_request transport this body).
Proof.
  intros w. destruct (perform_request_world this body w) as [->|(st & _ & ->)]; [done|].
  repeat split. eexists. split; [done|].
  intros u j h s t H k _. apply list_elem_of_singleton in H. by injection H as _ <- _ _ _.
Qed.

Lemma fetch_keeps_cache : preserves keeps_cache (_fetch_models_once transport).
Proof.
  intros w. unfold keeps_cache.
  destruct (_model_cache (self w)) as [l|] eqn:E.
  - by rewrite (fetch_cached w l E).
  - rewrite (fetch_uncached w E). cbn [snd].
    change (fetches (with_cache ?l ?w')) with (fetches w').
    rewrite fetches_with_sent. simpl. split; [lia|done].
Qed.

Lemma fetch_passes_through (body : ref) :
  preserves (passes_through body) (_fetch_models_once transport).
Proof.
  intros w. destruct (_model_cache (self w)) as [l|] eqn:E.
  - by rewrite (fetch_cached w l E).
  - rewrite (fetch_uncached w E). repeat split. eexists. split; [done|].
    intros u j h s t H. by apply list_elem_of_singleton in H.
Qed.

Lemma setitem_keeps_cache (body : ref) (k : string) (v : pyval) :
  preserves keeps_cache (dict_setitem body k v).
Proof.
  intros w. unfold keeps_cache, dict_setitem. cbn [snd].
  change (self (with_dict ?b ?d ?w')) with (self w').
  change (fetches (with_dict ?b ?d ?w')) with (fetches w').
  destruct (_model_cache (self w)); auto.
Qed.

Lemma setitem_passes_through (body : ref) (v : pyval) :
  preserves (passes_through body) (dict_setitem body "model" v).
Proof.
  intros w. unfold dict_setitem, passes_through. cbn [snd]. simpl.
  split; [|split].
  - intros k Hk. by rewrite lookup_total_insert_eq, lookup_insert_ne.
  - intros l Hl. by rewrite lookup_insert_ne.
  - exists []. split; [by rewrite app_nil_r|].
    intros ????? H. by apply elem_of_nil in H.
Qed.

Lemma strip_prefix_keeps_cache (body : ref) :
  preserves keeps_cache (strip_prefix body).
Proof.
  unfold strip_prefix.
  repeat first [apply setitem_keeps_cache | preserve_step].
Qed.

Lemma strip_prefix_passes_through (body : ref) :
  preserves (passes_through body) (strip_prefix body).
Proof.
  unfold strip_prefix.
  repeat first [apply setitem_passes_through | preserve_step].
Qed.

Lemma pipe_keeps_cache (body : ref) :
  preserves keeps_cache (pipe transport repr body).
Proof.
  unfold pipe.
  repeat first [apply strip_prefix_keeps_cache | apply fetch_keeps_cache
               | apply perform_request_keeps_cache | preserve_step].
Qed.

Lemma pipe_passes_through (body : ref) :
  preserves (passes_through body) (pipe transport repr body).
Proof.
  unfold pipe.
  repeat first [apply strip_prefix_passes_through | apply fetch_passes_through
               | apply perform_request_passes_through | preserve_step].
Qed.

Lemma pipes_keeps_cache : preserves keeps_cache (pipes transport).
Proof. unfold pipes. repeat first [apply fetch_keeps_cache | preserve_step]. Qed.

Lemma step_keeps_cache (w : world) (c : call) :
  keeps_cache w (step transport repr w c).
Proof.
  destruct c as [|body| |body d]; simpl.
  - apply pipes_keeps_cache.
  - apply pipe_keeps_cache.
  - apply fetch_keeps_cache.
  - unfold keeps_cache. simpl. destruct (_model_cache (self w)); auto.
Qed.

Lemma run_keeps_cache (cs : list call) (w : world) :
  keeps_cache w (run transport repr cs w).
Proof.
  revert w. induction cs as [|c cs IH]; intros w; [done|].
  simpl. etrans; [apply step_keeps_cache|apply IH].
Qed.

(** ** Running [pipe] on a body with a string model *)

Lemma normalized_dotted (m pre post : string) :
  m = pre +:+ "." +:+ post -> Str.contains "." pre = false -> normalized m = post.
Proof.
  intros Hm Hpre. unfold normalized.
  assert (Str.split_at_first "." m = Some (pre, post)) as ->; [|done].
  by apply StrFacts.split_at_first_Some.
Qed.

Lemma normalized_plain (m : string) : Str.contains "." m = false -> normalized m = m.
Proof.
  intros H. unfold normalized.
  by apply StrFacts.split_at_first_None in H as ->.
Qed.

Lemma lookup_total_Some (h : gmap ref dict) (body : ref) (k : string) (v : pyval) :
  (h !!! body) !! k = Some v -> h !! body = Some (h !!! body).
Proof.
  rewrite lookup_total_alt. destruct (h !! body); [done|].
  simpl. by rewrite lookup_empty.
Qed.

Lemma with_dict_same (body : ref) (w : world) (k : string) (v : pyval) :
  (heap w !!! body) !! k = Some v ->
  with_dict body (<[k := v]> (heap w !!! body)) w = w.
Proof.
  intros H. destruct w as [p h s]. unfold with_dict. simpl in *. f_equal.
  rewrite (insert_id _ _ _ H). apply insert_id. by eapply lookup_total_Some.
Qed.

Lemma strip_prefix_str (body : ref) (w : world) (m : string) :
  (heap w !!! body) !! "model" = Some (PyStr m) ->
  strip_prefix body w
  = (Ok tt, with_dict body (<["model" := PyStr (normalized m)]> (heap w !!! body)) w).
Proof.
  intros H. unfold strip_prefix. run_m. rewrite H. cbv beta iota.
  unfold Py.contains, normalized. cbv beta iota.
  destruct (Str.split_at_first "." m) as [[p q]|] eqn:E.
  - assert (Str.contains "." m = true) as ->.
    { apply not_false_iff_true. intros Hc.
      apply StrFacts.split_at_first_None in Hc. congruence. }
    rewrite H. unfold Py.split_dot_1, Str.split1. by rewrite E.
  - apply StrFacts.split_at_first_None in E. rewrite E.
    by rewrite with_dict_same.
Qed.

(** The message for a model that is not in the allow-list. *)
Lemma pipe_str (body : ref) (w : world) (m : string) (stream : pyval) :
  (heap w !!! body) !! "model" = Some (PyStr m) ->
  (heap w !!! body) !! "stream" = Some stream ->
  API_KEY (self w) <> "" ->
  let w1 := with_dict body (<["model" := PyStr (normalized m)]> (heap w !!! body)) w in
  pipe transport repr body w
  = match _fetch_models_once transport w1 with
    | (Ok allowed, w2) =>
        if negb (Py.list_contains allowed (PyStr (normalized m))) then
          (rbind (Py.join ", " allowed) (fun joined =>
             Ok (Message ("Error: model '" +:+ normalized m
                          +:+ "' is not supported." +:+ Str.nl
                          +:+ "Valid models: " +:+ joined))), w2)
        else perform_request transport (self w) body w2
    | (Raise e, w2) => (Raise e, w2)
    end.
Proof.
  intros Hm Hs Hk w1. unfold pipe.
  unfold mbind at 1 2 3 4 5, M_bind, dict_has, get_self. cbv beta iota.
  rewrite Hm, Hs.
  rewrite !bool_decide_eq_true_2 by eauto. cbn [negb orb].
  apply String.eqb_neq in Hk. rewrite Hk.
  rewrite (strip_prefix_str body w m Hm). fold w1.
  unfold mbind, M_bind, dict_getitem. cbv beta iota.
  assert ((heap w1 !!! body) !! "model" = Some (PyStr (normalized m))) as ->.
  { unfold w1. simpl. by rewrite lookup_total_insert_eq, lookup_insert_eq. }
  destruct (_fetch_models_once transport w1) as [[allowed|e] w2]; [|done].
  destruct (negb _); [|done].
  unfold lift, mret, M_ret. simpl. by destruct (Py.join ", " allowed).
Qed.

Lemma fetch_heap (w : world) : heap (_fetch_models_once transport w).2 = heap w.
Proof.
  destruct (_model_cache (self w)) as [l|] eqn:E.
  - by rewrite (fetch_cached w l E).
  - by rewrite (fetch_uncached w E).
Qed.

Lemma pipe_str_heap (body : ref) (w : world) (m : string) (stream : pyval) :
  (heap w !!! body) !! "model" = Some (PyStr m) ->
  (heap w !!! body) !! "stream" = Some stream ->
  API_KEY (self w) <> "" ->
  heap (pipe transport repr body w).2
  = <[body := <["model" := PyStr (normalized m)]> (heap w !!! body)]> (heap w).
Proof.
  intros Hm Hs Hk. rewrite (pipe_str body w m stream Hm Hs Hk).
  set (w1 := with_dict _ _ w).
  pose proof (fetch_heap w1) as Hh.
  destruct (_fetch_models_once transport w1) as [[allowed|e] w2]; [|done].
  destruct (negb _); [done|].
  destruct (perform_request_only_posts (self w) body w2) as (_ & -> & _). done.
Qed.

Lemma string_length_app (s t : string) :
  String.length (s +:+ t) = (String.length s + String.length t)%nat.
Proof. induction s as [|a s IH]; [done|]. rewrite StrFacts.app_cons. simpl. by rewrite IH. Qed.

Lemma normalized_shorter (m : string) :
  Str.contains "." m = true -> normalized m <> m.
Proof.
  intros H. unfold normalized.
  destruct (Str.split_at_first "." m) as [[p q]|] eqn:E.
  - apply StrFacts.split_at_first_Some in E as [E _]. intros ->.
    apply (f_equal String.length) in E. rewrite string_length_app in E. simpl in E. lia.
  - apply StrFacts.split_at_first_None in E. congruence.
Qed.

(** ** The claims *)

(** C1: on a body that passes validation (both keys present, API key set)
    and whose model is a string, [pipe] rewrites [body["model"]] in place:
    when the id contains a dot, to everything after the first dot (the text
    [post] of the one decomposition [pre.post] with no dot in [pre]); when
    it contains no dot, the id is left as it is. *)
Theorem pipe_normalizes_model (body : ref) (w : world) (m : string) (stream : pyval) :
  (heap w !!! body) !! "model" = Some (PyStr m) ->
  (heap w !!! body) !! "stream" = Some stream ->
  API_KEY (self w) <> "" ->
  let after := (heap (pipe transport repr body w).2 !!! body) !! "model" in
  (forall pre post, m = pre +:+ "." +:+ post -> Str.contains "." pre = false ->
                    after = Some (PyStr post)) /\
  (Str.contains "." m = true ->
   exists pre post, m = pre +:+ "." +:+ post /\ Str.contains "." pre = false) /\
  (Str.contains "." m = false -> after = Some (PyStr m)).
Proof.
  intros Hm Hs Hk after.
  assert (after = Some (PyStr (normalized m))) as ->.
  { unfold after. rewrite (pipe_str_heap body w m stream Hm Hs Hk).
    by rewrite lookup_total_insert_eq, lookup_insert_eq. }
  split; [|split].
  - intros pre post E Hpre. by rewrite (normalized_dotted m pre post).
  - intros Hdot. destruct (Str.split_at_first "." m) as [[p q]|] eqn:E.
    + exists p, q. by apply StrFacts.split_at_first_Some.
    + apply StrFacts.split_at_first_None in E. congruence.
  - intros Hplain. by rewrite normalized_plain.
Qed.

(** C10: the normalization stays in the caller's mapping on every return
    path.  On a body that passes validation and whose model is a string,
    whatever [pipe] returns or raises afterwards (an unsupported-model
    message, an HTTP error message, any other message, a result), the dict
    the caller holds has the stripped id under ["model"] and is otherwise as
    before; for a dotted id this is not the original id. *)
Theorem normalization_persists (body : ref) (w : world) (m : string)
    (stream : pyval) (r : result reply) (w' : world) :
  (heap w !!! body) !! "model" = Some (PyStr m) ->
  (heap w !!! body) !! "stream" = Some stream ->
  API_KEY (self w) <> "" ->
  pipe transport repr body w = (r, w') ->
  heap w' !!! body = <["model" := PyStr (normalized m)]> (heap w !!! body) /\
  (Str.contains "." m = true -> (heap w' !!! body) !! "model" <> Some (PyStr m)).
Proof.
  intros Hm Hs Hk Hrun.
  pose proof (pipe_str_heap body w m stream Hm Hs Hk) as Hh.
  rewrite Hrun in Hh. simpl in Hh. rewrite Hh, lookup_total_insert_eq.
  split; [done|]. intros Hdot. rewrite lookup_insert_eq.
  intros [= E]. by apply normalized_shorter in E.
Qed.

(** The two early returns of [pipe]. *)
Lemma pipe_missing_key (body : ref) (w : world) :
  (heap w !!! body) !! "model" = None \/ (heap w !!! body) !! "stream" = None ->
  pipe transport repr body w = (Ok (Message validation_message), w).
Proof.
  intros Hmiss. unfold pipe. unfold mbind at 1 2, M_bind, dict_has. cbv beta iota.
  destruct Hmiss as [-> | ->].
  - rewrite (bool_decide_eq_false_2 (is_Some None)) by (by intros [? ?]). done.
  - rewrite (bool_decide_eq_false_2 (is_Some None)) by (by intros [? ?]).
    by rewrite orb_true_r.
Qed.

Lemma pipe_no_key (body : ref) (w : world) :
  is_Some ((heap w !!! body) !! "model") ->
  is_Some ((heap w !!! body) !! "stream") ->
  API_KEY (self w) = "" ->
  pipe transport repr body w = (Ok (Message credential_message), w).
Proof.
  intros Hm Hs Hk. unfold pipe.
  unfold mbind at 1 2 3, M_bind, dict_has, get_self. cbv beta iota.
  rewrite !bool_decide_eq_true_2 by done. cbn [negb orb]. by rewrite Hk.
Qed.

(** C6: for every body that lacks the ["model"] key or the ["stream"] key,
    [pipe] returns the message that the body "must contain" them and leaves
    the world as it is (no request is sent, nothing is written).  No other
    field is validated: a body that has both keys never gets this message,
    whatever the values of its fields. *)
Theorem pipe_validates_model_and_stream (body : ref) (w : world) :
  (heap w !!! body) !! "model" = None \/ (heap w !!! body) !! "stream" = None ->
  pipe transport repr body w = (Ok (Message validation_message), w) /\
  Str.contains "must contain" validation_message = true /\
  forall (body' : ref) (w0 : world),
    is_Some ((heap w0 !!! body') !! "model") ->
    is_Some ((heap w0 !!! body') !! "stream") ->
    (pipe transport repr body' w0).1 <> Ok (Message validation_message).
Proof.
  intros Hmiss. split; [|split; [by vm_compute|]].
  - by apply pipe_missing_key.
  - intros body' w0 Hm Hs. unfold pipe.
    unfold mbind at 1 2 3 4, M_bind, dict_has, get_self. cbv beta iota.
    rewrite !bool_decide_eq_true_2 by done. cbn [negb orb].
    destruct (String.eqb _ _); [done|].
    destruct (strip_prefix body' w0) as [[[]|e] w1]; [|done].
    unfold mbind, M_bind.
    destruct (dict_getitem body' "model" w1) as [[model_name|e] w2]; [|done].
    destruct (_fetch_models_once transport w2) as [[allowed|e] w3]; [|done].
    destruct (negb _).
    + unfold lift. destruct (Py.join ", " allowed); [|done].
      unfold mret, M_ret. simpl. by intros [=].
    + unfold perform_request, session_send. run_m.
      repeat (case_match; try done).
Qed.

(** C2: the model cache is populated at most once.  When the cache is
    populated, [_fetch_models_once] returns the cached list and leaves the
    world as it is (no request), and so does [pipes]; a call of [pipe] keeps
    the cache and sends no GET; over any sequence of calls (and of host-side
    assignments to the bodies) the cache stays the same list and no GET is
    sent.  From a fresh adapter, any sequence of calls sends at most one
    GET. *)
Theorem model_cache_populated_once (w : world) (l : list pyval) :
  _model_cache (self w) = Some l ->
  _fetch_models_once transport w = (Ok l, w) /\
  pipes transport w = (Ok ((fun m => [("id", m); ("name", m)]) <$> l), w) /\
  (forall body,
     _model_cache (self (pipe transport repr body w).2) = Some l /\
     fetches (pipe transport repr body w).2 = fetches w) /\
  (forall cs,
     _model_cache (self (run transport repr cs w)) = Some l /\
     fetches (run transport repr cs w) = fetches w) /\
  (forall key h cs, (fetches (run transport repr cs (fresh key h)) <= 1)%nat).
Proof.
  intros Hc. split; [by apply fetch_cached|]. split; [|split; [|split]].
  - unfold pipes, mbind, M_bind. by rewrite (fetch_cached w l Hc).
  - intros body. pose proof (pipe_keeps_cache body w) as H.
    unfold keeps_cache in H. by rewrite Hc in H.
  - intros cs. pose proof (run_keeps_cache cs w) as H.
    unfold keeps_cache in H. by rewrite Hc in H.
  - intros key h cs. pose proof (run_keeps_cache cs (fresh key h)) as H.
    unfold keeps_cache in H. simpl in H. apply H.
Qed.

Lemma raise_for_status_None (r : response) :
  ~ (400 <= status_code r < 600) -> raise_for_status r = None.
Proof.
  intros H. unfold raise_for_status.
  destruct (Z.leb_spec 400 (status_code r)), (Z.ltb_spec (status_code r) 500);
    simpl; try lia;
  destruct (Z.leb_spec 500 (status_code r)), (Z.ltb_spec (status_code r) 600);
    simpl; try lia; done.
Qed.

Lemma raise_for_status_Some (r : response) :
  400 <= status_code r < 600 -> exists kind,
    raise_for_status r
    = Some (pretty (status_code r) +:+ kind +:+ reason r +:+ " for url: " +:+ url r).
Proof.
  intros H. unfold raise_for_status.
  destruct (Z.leb_spec 400 (status_code r)), (Z.ltb_spec (status_code r) 500);
    simpl; try lia; eauto;
  destruct (Z.leb_spec 500 (status_code r)), (Z.ltb_spec (status_code r) 600);
    simpl; try lia; eauto.
Qed.

Lemma rmap_getitem_ids (entries : list pyval) (ids : list string) :
  Forall2 entry_with_id entries ids ->
  rmap (fun m => Py.getitem m "id") entries = Ok (PyStr <$> ids).
Proof.
  induction 1 as [|e id entries ids (fields & -> & Hid) _ IH]; [done|].
  simpl. by rewrite Hid, IH.
Qed.

Lemma is_exposed_spec (id : string) :
  is_exposed id = true <-> ~ occurs "tts" id /\ ~ occurs "whisper" id.
Proof.
  unfold is_exposed, occurs.
  rewrite andb_true_iff, !negb_true_iff, <- !not_true_iff_false.
  by rewrite !StrFacts.contains_spec.
Qed.

(** C7: when the GET answers with a 2xx status and a JSON body of the
    expected shape (an object whose ["data"] is an array of objects, each
    with a string under ["id"]), the list returned and cached is the ids of
    the entries, in response order, without those in which ["tts"] or
    ["whisper"] occurs (as a substring, byte for byte). *)
Theorem fetch_lists_remote_ids (w : world) (r : response)
    (d : list (string * pyval)) (entries : list pyval) (ids : list string) :
  _model_cache (self w) = None ->
  transport (sent w) (models_request (self w)) = Returned r ->
  200 <= status_code r < 300 ->
  json r = Returned (PyDict d) ->
  Py.assoc "data" d = Some (PyList entries) ->
  Forall2 entry_with_id entries ids ->
  let kept := PyStr <$> List.filter is_exposed ids in
  _fetch_models_once transport w
  = (Ok kept, with_cache kept (with_sent (models_request (self w)) w)) /\
  forall id, is_exposed id = true <-> ~ occurs "tts" id /\ ~ occurs "whisper" id.
Proof.
  intros Hc Hget Hst Hjson Hdata Hids kept. split; [|apply is_exposed_spec].
  rewrite (fetch_uncached w Hc), Hget. unfold resolved, listed_models.
  rewrite raise_for_status_None by lia. rewrite Hjson. simpl.
  rewrite Hdata. simpl. rewrite (rmap_getitem_ids entries ids Hids). simpl.
  by rewrite exposed_strings.
Qed.

(** C3, as amended: whenever the [try] block of [_fetch_models_once] fails
    -- the GET raises (network error, timeout), the status is 4xx or 5xx,
    the body does not decode as JSON, or listing its ids raises --
    [_fetch_models_once] returns the hard-coded list with the filtering rule
    applied and caches it. *)
Theorem fetch_falls_back (w : world) :
  _model_cache (self w) = None ->
  fetch_failure (transport (sent w) (models_request (self w))) ->
  let kept := PyStr <$> List.filter is_exposed _hardcoded_models in
  _fetch_models_once transport w
  = (Ok kept, with_cache kept (with_sent (models_request (self w)) w)).
Proof.
  intros Hc Hfail kept.
  assert (resolved (transport (sent w) (models_request (self w))) = kept) as Hr.
  { unfold kept. rewrite filter_hardcoded. fold fallback.
    destruct Hfail as [msg|r Hst|r msg Hjson|r e He]; simpl; [done|..].
    - unfold listed_models.
      destruct (raise_for_status_Some r Hst) as [kind ->]. done.
    - unfold listed_models. rewrite Hjson.
      by destruct (raise_for_status r).
    - by rewrite He. }
  by rewrite (fetch_uncached w Hc), Hr.
Qed.

Lemma list_contains_strings (ids : list string) (x : string) :
  Py.list_contains (PyStr <$> ids) (PyStr x) = bool_decide (x ∈ ids).
Proof.
  induction ids as [|id ids IH]; [done|].
  unfold Py.list_contains in *. rewrite fmap_cons. simpl. rewrite IH.
  destruct (String.eqb_spec id x) as [->|Hne]; simpl.
  - symmetry. apply bool_decide_eq_true_2. left.
  - apply bool_decide_ext. rewrite elem_of_cons.
    split; [by right|]. intros [E|Hin]; [by destruct Hne|done].
Qed.

Lemma join_strings (sep : string) (ids : list string) :
  Py.join sep (PyStr <$> ids) = Ok (Str.join sep ids).
Proof.
  unfold Py.join.
  assert (rmap (fun v => match v with PyStr s => Ok s | _ => Raise TypeError end)
               (PyStr <$> ids) = Ok ids) as ->; [|done].
  induction ids as [|id ids IH]; [done|]. rewrite fmap_cons. simpl. by rewrite IH.
Qed.

Lemma contains_join (sep id : string) (ids : list string) :
  id ∈ ids -> Str.contains id (Str.join sep ids) = true.
Proof.
  induction ids as [|x ids IH]; intros Hin; [by apply elem_of_nil in Hin|].
  apply elem_of_cons in Hin as [->|Hin].
  - destruct ids; [apply StrFacts.contains_self|apply StrFacts.contains_here].
  - destruct ids as [|y ids]; [by apply elem_of_nil in Hin|].
    change (Str.join sep (x :: y :: ids)) with (x +:+ sep +:+ Str.join sep (y :: ids)).
    by apply StrFacts.contains_app_r, StrFacts.contains_app_r, IH.
Qed.

Lemma fetch_posts (w : world) : posts (_fetch_models_once transport w).2 = posts w.
Proof.
  destruct (_model_cache (self w)) as [l|] eqn:E.
  - by rewrite (fetch_cached w l E).
  - rewrite (fetch_uncached w E). unfold posts. simpl.
    rewrite List.filter_app. simpl. by rewrite app_nil_r.
Qed.

(** C4: on a body that passes validation and whose model is a string, when
    the normalized id is not in the resolved allow-list (a list of strings),
    [pipe] returns the message that the model "is not supported", which ends
    with the allowed ids joined by [", "] in list order (so that every
    allowed id occurs in it), and sends no POST. *)
Theorem pipe_rejects_unlisted_model (body : ref) (w : world) (m : string)
    (stream : pyval) (ids : list string) :
  (heap w !!! body) !! "model" = Some (PyStr m) ->
  (heap w !!! body) !! "stream" = Some stream ->
  API_KEY (self w) <> "" ->
  (_fetch_models_once transport w).1 = Ok (PyStr <$> ids) ->
  normalized m ∉ ids ->
  let msg := "Error: model '" +:+ normalized m +:+ "' is not supported."
             +:+ Str.nl +:+ "Valid models: " +:+ Str.join ", " ids in
  (pipe transport repr body w).1 = Ok (Message msg) /\
  Str.contains "is not supported" msg = true /\
  (forall id, id ∈ ids -> Str.contains id msg = true) /\
  posts (pipe transport repr body w).2 = posts w.
Proof.
  intros Hm Hs Hk Hallowed Hnot msg.
  rewrite (pipe_str body w m stream Hm Hs Hk), fetch_with_dict, Hallowed.
  rewrite list_contains_strings, bool_decide_eq_false_2 by done. cbn [negb].
  rewrite join_strings. cbn [rbind fst snd]. fold msg.
  split; [done|]. split; [|split].
  - unfold msg. apply StrFacts.contains_app_r, StrFacts.contains_app_r.
    by apply StrFacts.contains_app_l.
  - intros id Hid. unfold msg.
    do 5 apply StrFacts.contains_app_r. by apply contains_join.
  - change (posts (with_dict ?b ?d ?w')) with (posts w'). apply fetch_posts.
Qed.

Lemma perform_request_error (this : Pipe) (body : ref) (w : world)
    (stream : pyval) (r : response) (exc body_text : string) :
  (heap w !!! body) !! "stream" = Some stream ->
  transport (sent w) (chat_request this (heap w !!! body) stream) = Returned r ->
  raise_for_status r = Some exc ->
  text r = Returned body_text ->
  let msg := "HTTP " +:+ pretty (status_code r) +:+ " calling " +:+ chat_url this
             +:+ ": " +:+ exc +:+ Str.nl +:+ body_text in
  (perform_request transport this body w).1
  = Ok (Message (if status_code r =? 404 then msg +:+ Str.nl +:+ hint_404 else msg)).
Proof.
  intros Hs Hpost Hexc Htext msg. unfold perform_request, session_send. run_m.
  rewrite Hs. fold (chat_url this). fold (chat_request this (heap w !!! body) stream).
  by rewrite Hpost, Hexc, Htext.
Qed.


(** X13: when the POST answers with an error status (4xx or 5xx) and the
    text of the response can be read, [pipe] returns a message in which
    occur the status code (in decimal), the target URL, the text of the
    [HTTPError] and the text of the response body; when the status is 404
    the hint on unknown model ids occurs in it as well. *)
Theorem pipe_reports_http_error (body : ref) (w : world) (m : string)
    (stream : pyval) (allowed : list pyval) (r : response) (body_text : string) :
  (heap w !!! body) !! "model" = Some (PyStr m) ->
  (heap w !!! body) !! "stream" = Some stream ->
  API_KEY (self w) <> "" ->
  (_fetch_models_once transport w).1 = Ok allowed ->
  Py.list_contains allowed (PyStr (normalized m)) = true ->
  transport (sent (_fetch_models_once transport w).2)
            (chat_request (self w)
               (<["model" := PyStr (normalized m)]> (heap w !!! body)) stream)
  = Returned r ->
  400 <= status_code r < 600 ->
  text r = Returned body_text ->
  exists msg exc,
    (pipe transport repr body w).1 = Ok (Message msg) /\
    raise_for_status r = Some exc /\
    Str.contains (pretty (status_code r)) msg = true /\
    Str.contains (chat_url (self w)) msg = true /\
    Str.contains exc msg = true /\
    Str.contains body_text msg = true /\
    (status_code r = 404 -> Str.contains hint_404 msg = true).
Proof.
  intros Hm Hs Hk Hallowed Hin Hpost Hst Htext.
  destruct (raise_for_status_Some r Hst) as [kind Hexc].
  eexists _, _. split; [|split; [exact Hexc|]].
  - rewrite (pipe_str body w m stream Hm Hs Hk), fetch_with_dict, Hallowed, Hin.
    cbn [negb].
    eapply (perform_request_error _ _ _ stream r); [| |exact Hexc|exact Htext].
    + simpl. rewrite lookup_total_insert_eq. by rewrite lookup_insert_ne.
    + simpl. by rewrite lookup_total_insert_eq.
  - set (msg := "HTTP " +:+ _).
    assert (Str.contains (pretty (status_code r)) msg = true
            /\ Str.contains (chat_url (self w)) msg = true
            /\ Str.contains (pretty (status_code r) +:+ kind +:+ reason r
                              +:+ " for url: " +:+ url r) msg = true
            /\ Str.contains body_text msg = true) as (H1 & H2 & H3 & H4).
    { unfold msg. repeat split.
      - apply StrFacts.contains_app_r, StrFacts.contains_here.
      - do 3 apply StrFacts.contains_app_r. apply StrFacts.contains_here.
      - do 5 apply StrFacts.contains_app_r. apply StrFacts.contains_here.
      - do 7 apply StrFacts.contains_app_r. apply StrFacts.contains_self. }
    destruct (Z.eqb_spec (status_code r) 404) as [E|E].
    + repeat split; try by apply StrFacts.contains_app_l.
      intros _. do 2 apply StrFacts.contains_app_r. apply StrFacts.contains_self.
    + repeat split; done.
Qed.


End Properties.

(** ** The claims on sample inputs *)

(** The source's demo request, with no network: the prefix is stripped in
    the caller's dict. *)
Lemma pipe_normalizes_model_witness :
  let w := Sample.calling Sample.demo_request in
  (heap w !!! Sample.body) !! "model"
  = Some (PyStr "groq_new.moonshotai/kimi-k2-instruct") /\
  (heap w !!! Sample.body) !! "stream" = Some (PyBool false) /\
  API_KEY (self w) <> "" /\
  (heap (pipe Sample.offline Sample.repr Sample.body w).2 !!! Sample.body) !! "model"
  = Some (PyStr "moonshotai/kimi-k2-instruct").
Proof.
  intros w.
  assert ((heap w !!! Sample.body) !! "model"
          = Some (PyStr "groq_new.moonshotai/kimi-k2-instruct")) as Hm
    by (vm_compute; reflexivity).
  assert ((heap w !!! Sample.body) !! "stream" = Some (PyBool false)) as Hs
    by (vm_compute; reflexivity).
  assert (API_KEY (self w) <> "") as Hk by discriminate.
  split; [exact Hm|]. split; [exact Hs|]. split; [exact Hk|].
  destruct (pipe_normalizes_model Sample.offline Sample.repr Sample.body w
              _ _ Hm Hs Hk) as (H & _ & _).
  apply (H "groq_new" "moonshotai/kimi-k2-instruct"); vm_compute; reflexivity.
Defined.

(** The examples of the specification: [a.b.c] becomes [b.c], a plain id
    stays. *)
Example pipe_strips_first_dot_only :
  (heap (pipe Sample.offline Sample.repr Sample.body
              (Sample.calling (Sample.request_for (PyStr "a.b.c")))).2
   !!! Sample.body) !! "model" = Some (PyStr "b.c").
Proof. vm_compute. reflexivity. Qed.

Example pipe_keeps_plain_id :
  (heap (pipe Sample.offline Sample.repr Sample.body
              (Sample.calling (Sample.request_for (PyStr "llama3-8b-8192")))).2
   !!! Sample.body) !! "model" = Some (PyStr "llama3-8b-8192").
Proof. vm_compute. reflexivity. Qed.

(** A populated cache over two calls of [pipes] and one of [pipe]. *)
Lemma model_cache_populated_once_witness :
  let w := Sample.cached Sample.demo_request in
  _model_cache (self w) = Some [PyStr "llama3-8b-8192"] /\
  _fetch_models_once Sample.offline w = (Ok [PyStr "llama3-8b-8192"], w) /\
  fetches (run Sample.offline Sample.repr
               [CallPipes; CallPipe Sample.body; CallPipes] w) = fetches w.
Proof.
  intros w.
  assert (_model_cache (self w) = Some [PyStr "llama3-8b-8192"]) as Hc
    by reflexivity.
  destruct (model_cache_populated_once Sample.offline Sample.repr w _ Hc)
    as (Hfetch & _ & _ & Hrun & _).
  split; [exact Hc|]. split; [exact Hfetch|apply Hrun].
Defined.

(** With no network the fetch falls back on the hard-coded list. *)
Lemma fetch_falls_back_witness :
  let w := Sample.calling Sample.demo_request in
  _model_cache (self w) = None /\
  fetch_failure (Sample.offline (sent w) (models_request (self w))) /\
  (_fetch_models_once Sample.offline w).1 = Ok (PyStr <$> _hardcoded_models).
Proof.
  intros w.
  assert (_model_cache (self w) = None) as Hc by reflexivity.
  assert (fetch_failure (Sample.offline (sent w) (models_request (self w)))) as Hf
    by apply transport_failure.
  split; [exact Hc|]. split; [exact Hf|].
  rewrite (fetch_falls_back Sample.offline w Hc Hf). vm_compute. reflexivity.
Defined.

(** C3 as stated fails: a listing that comes with status 300 (not a 2xx
    status, and not one [raise_for_status] raises for) is cached as it is,
    not replaced by the fallback. *)
Lemma fetch_keeps_listing_on_status_300 :
  let w := Sample.calling Sample.demo_request in
  exists r,
    Sample.multiple_choices (sent w) (models_request (self w)) = Returned r /\
    status_code r = 300 /\
    fails_as_stated (Returned r) /\
    (_fetch_models_once Sample.multiple_choices w).1 = Ok [PyStr "llama3-8b-8192"] /\
    (_fetch_models_once Sample.multiple_choices w).1
    <> Ok (PyStr <$> List.filter is_exposed _hardcoded_models) /\
    ~ fallback_on_every_failure.
Proof.
  intros w. eexists. split; [reflexivity|]. split; [reflexivity|].
  assert (fails_as_stated
            (Sample.multiple_choices (sent w) (models_request (self w)))) as Hf.
  { left. simpl. lia. }
  split; [exact Hf|]. split; [vm_compute; reflexivity|].
  split; [vm_compute; discriminate|].
  intros H. specialize (H Sample.multiple_choices w eq_refl Hf).
  vm_compute in H. discriminate.
Qed.

(** The spec's example: allow-list [llama3-8b-8192], request for
    [unknown-model]. *)
Lemma pipe_rejects_unlisted_model_witness :
  let w := Sample.cached (Sample.request_for (PyStr "unknown-model")) in
  (_fetch_models_once Sample.offline w).1 = Ok (PyStr <$> ["llama3-8b-8192"]) /\
  (normalized "unknown-model" ∉ ["llama3-8b-8192"]) /\
  exists msg,
    (pipe Sample.offline Sample.repr Sample.body w).1 = Ok (Message msg) /\
    Str.contains "is not supported" msg = true /\
    Str.contains "llama3-8b-8192" msg = true /\
    posts (pipe Sample.offline Sample.repr Sample.body w).2 = [].
Proof.
  intros w.
  assert ((heap w !!! Sample.body) !! "model" = Some (PyStr "unknown-model")) as Hm
    by (vm_compute; reflexivity).
  assert ((heap w !!! Sample.body) !! "stream" = Some (PyBool false)) as Hs
    by (vm_compute; reflexivity).
  assert (API_KEY (self w) <> "") as Hk by discriminate.
  assert ((_fetch_models_once Sample.offline w).1
          = Ok (PyStr <$> ["llama3-8b-8192"])) as Ha by reflexivity.
  assert (normalized "unknown-model" ∉ ["llama3-8b-8192"]) as Hn.
  { apply (bool_decide_unpack _). vm_compute. exact I. }
  destruct (pipe_rejects_unlisted_model Sample.offline Sample.repr Sample.body w
              _ _ _ Hm Hs Hk Ha Hn) as (Hr & Hc & Hids & Hp).
  split; [exact Ha|]. split; [exact Hn|].
  eexists. split; [exact Hr|]. split; [exact Hc|]. split; [|exact Hp].
  apply Hids. left.
Defined.



(** A body without the ["stream"] key. *)
Lemma pipe_validates_model_and_stream_witness :
  let w := Sample.calling Sample.request_without_stream in
  (heap w !!! Sample.body) !! "stream" = None /\
  pipe Sample.offline Sample.repr Sample.body w
  = (Ok (Message validation_message), w).
Proof.
  intros w.
  assert ((heap w !!! Sample.body) !! "stream" = None) as Hs
    by (vm_compute; reflexivity).
  split; [exact Hs|].
  apply (pipe_validates_model_and_stream Sample.offline Sample.repr Sample.body w).
  right. exact Hs.
Defined.

(** A listing of five models, two of them withheld; the upper-case [TTS]
    is not matched. *)
Lemma fetch_lists_remote_ids_witness :
  let w := Sample.calling Sample.demo_request in
  let transport := Sample.serving Sample.not_found in
  _model_cache (self w) = None /\
  (_fetch_models_once transport w).1
  = Ok [PyStr "llama3-8b-8192"; PyStr "TTS-upper"; PyStr "qwen/qwen3-32b"] /\
  _model_cache (self (_fetch_models_once transport w).2)
  = Some [PyStr "llama3-8b-8192"; PyStr "TTS-upper"; PyStr "qwen/qwen3-32b"].
Proof.
  intros w transport.
  assert (_model_cache (self w) = None) as Hc by reflexivity.
  assert (Forall2 entry_with_id
            ((fun id => PyDict [("id", PyStr id); ("object", PyStr "model")])
               <$> Sample.remote_ids) Sample.remote_ids) as Hids.
  { repeat constructor; eexists; split; reflexivity. }
  destruct (fetch_lists_remote_ids transport w
              (Sample.answer 200 "OK" "" (Returned (Sample.listing Sample.remote_ids)))
              _ _ Sample.remote_ids Hc eq_refl ltac:(simpl; lia) eq_refl eq_refl Hids)
    as [H _].
  split; [exact Hc|]. rewrite H. split; vm_compute; reflexivity.
Defined.

(** A 404 on the chat request: the message names the status and carries the
    hint. *)
Lemma pipe_reports_http_error_witness :
  let w := Sample.cached (Sample.request_for (PyStr "groq.llama3-8b-8192")) in
  let transport := Sample.serving Sample.not_found in
  status_code Sample.not_found = 404 /\
  exists msg,
    (pipe transport Sample.repr Sample.body w).1 = Ok (Message msg) /\
    Str.contains "404" msg = true /\
    Str.contains "https://api.groq.com/openai/v1/chat/completions" msg = true /\
    Str.contains "{}" msg = true /\
    Str.contains "unknown model id" msg = true.
Proof.
  intros w transport.
  assert ((heap w !!! Sample.body) !! "model" = Some (PyStr "groq.llama3-8b-8192"))
    as Hm by (vm_compute; reflexivity).
  assert ((heap w !!! Sample.body) !! "stream" = Some (PyBool false)) as Hs
    by (vm_compute; reflexivity).
  assert (API_KEY (self w) <> "") as Hk by discriminate.
  assert ((_fetch_models_once transport w).1 = Ok [PyStr "llama3-8b-8192"]) as Ha
    by reflexivity.
  assert (Py.list_contains [PyStr "llama3-8b-8192"]
            (PyStr (normalized "groq.llama3-8b-8192")) = true) as Hin
    by (vm_compute; reflexivity).
  destruct (pipe_reports_http_error transport Sample.repr Sample.body w
              _ _ _ Sample.not_found "{}" Hm Hs Hk Ha Hin eq_refl
              ltac:(simpl; lia) eq_refl)
    as (msg & exc & Hr & _ & Hcode & Hurl & _ & Htext & Hhint).
  split; [reflexivity|]. exists msg.
  split; [exact Hr|]. split; [exact Hcode|]. split; [exact Hurl|].
  split; [exact Htext|].
  specialize (Hhint eq_refl). apply StrFacts.contains_spec in Hhint.
  destruct Hhint as (pre & post & ->). apply StrFacts.contains_app_r.
  apply StrFacts.contains_app_l. vm_compute. reflexivity.
Defined.

(** A dotted id that is not in the allow-list: the call ends with the
    unsupported-model message and the caller's dict keeps the stripped id. *)
Lemma normalization_persists_witness :
  let w := Sample.cached (Sample.request_for (PyStr "a.b.c")) in
  let run := pipe Sample.offline Sample.repr Sample.body w in
  (exists msg, run.1 = Ok (Message msg) /\ Str.contains "is not supported" msg = true) /\
  (heap run.2 !!! Sample.body) !! "model" = Some (PyStr "b.c") /\
  (heap run.2 !!! Sample.body) !! "model" <> Some (PyStr "a.b.c").
Proof.
  intros w run.
  assert ((heap w !!! Sample.body) !! "model" = Some (PyStr "a.b.c")) as Hm
    by (vm_compute; reflexivity).
  assert ((heap w !!! Sample.body) !! "stream" = Some (PyBool false)) as Hs
    by (vm_compute; reflexivity).
  assert (API_KEY (self w) <> "") as Hk by discriminate.
  destruct (normalization_persists Sample.offline Sample.repr Sample.body w
              _ _ run.1 run.2 Hm Hs Hk (surjective_pairing run)) as [Heq Hne].
  split; [eexists; split; vm_compute; reflexivity|].
  split; [|apply Hne; vm_compute; reflexivity].
  rewrite Heq. vm_compute. reflexivity.
Defined.

(** ** Further sample runs *)

(** A listing that is the empty JSON object gives the empty list, through
    the default of [.get("data", [])], not the fallback. *)
Example fetch_caches_nothing_on_empty_object :
  (_fetch_models_once Sample.empty_object
     (Sample.calling Sample.demo_request)).1 = Ok [].
Proof. vm_compute. reflexivity. Qed.

(** A streamed error response whose body cannot be read: the exception of
    [response.text] leaves [pipe]. *)
Example pipe_raises_on_unreadable_error_body :
  (pipe (Sample.serving Sample.broken_stream) Sample.repr Sample.body
        (Sample.cached Sample.streaming_request)).1
  = Raise (RequestException "Connection broken: IncompleteRead").
Proof. vm_compute. reflexivity. Qed.

(** A non-streaming call answered with 200 and a JSON body returns the
    parsed body; a streaming call returns the iterator over the lines. *)
Example pipe_returns_parsed_json :
  (pipe (Sample.serving Sample.completion) Sample.repr Sample.body
        (Sample.cached (Sample.request_for (PyStr "llama3-8b-8192")))).1
  = Ok (Json (PyDict [("id", PyStr "x")])).
Proof. vm_compute. reflexivity. Qed.

Example pipe_returns_lines_when_streaming :
  (pipe (Sample.serving Sample.completion) Sample.repr Sample.body
        (Sample.cached Sample.streaming_request)).1
  = Ok (Lines []).
Proof. vm_compute. reflexivity. Qed.

(** Without a credential the call ends before any request. *)
Example pipe_needs_credential :
  let w := fresh "" {[ Sample.body := Sample.demo_request ]} in
  pipe Sample.offline Sample.repr Sample.body w
  = (Ok (Message credential_message), w).
Proof. vm_compute. reflexivity. Qed.

(** * The rest of the adapter *)

#[local] Instance only_writes_preorder : PreOrder only_writes.
Proof.
  split.
  - by intros w.
  - intros w1 w2 w3 [? ?] [? ?]. split; congruence.
Qed.

#[local] Instance keeps_keys_preorder (body : ref) : PreOrder (keeps_keys body).
Proof.
  split.
  - by intros w.
  - intros w1 w2 w3 [? ?] [? ?]. split; congruence.
Qed.

Section Further.

Context (transport : list request -> request -> outcome response).
Context (repr : pyval -> string).

(** ** What a call sends *)

Lemma strip_prefix_only_writes (body : ref) : preserves only_writes (strip_prefix body).
Proof.
  assert (forall k v, preserves only_writes (dict_setitem body k v)) as Hset
    by (by intros k v w).
  unfold strip_prefix. repeat first [apply Hset | preserve_step].
Qed.

(** The world after [_fetch_models_once]: as before, or with the cache
    populated by one GET. *)
Lemma fetch_world (w : world) :
  (_fetch_models_once transport w).2 = w \/
  (_model_cache (self w) = None /\
   (_fetch_models_once transport w).2
   = with_cache (resolved (transport (sent w) (models_request (self w))))
                (with_sent (models_request (self w)) w)).
Proof.
  destruct (_model_cache (self w)) as [l|] eqn:E.
  - left. by rewrite (fetch_cached transport w l E).
  - right. split; [done|]. by rewrite (fetch_uncached transport w E).
Qed.

(** The requests of one call of [pipe] and what it does to the adapter:
    at most the GET of the model list (when the cache is empty, which
    populates it), then at most one POST. *)
Lemma pipe_world_of (body : ref) (w : world) (r : result reply) (w' : world) :
  pipe transport repr body w = (r, w') ->
  exists gets posts,
    sent w' = sent w ++ gets ++ posts /\
    ((gets = [] /\ self w' = self w) \/
     (_model_cache (self w) = None /\ gets = [models_request (self w)] /\
      self w' = populated w transport)) /\
    (posts = [] \/
     exists payload stream, posts = [chat_request (self w) payload stream]).
Proof.
  intros H.
  assert (exists gets posts : list request,
            sent w = sent w ++ gets ++ posts /\
            ((gets = [] /\ self w = self w) \/
             (_model_cache (self w) = None /\ gets = [models_request (self w)] /\
              self w = populated w transport)) /\
            (posts = [] \/
             exists payload stream, posts = [chat_request (self w) payload stream]))
    as Hstay.
  { exists [], []. rewrite !app_nil_r. auto. }
  unfold pipe in H. unfold mbind at 1 2, M_bind, dict_has in H. cbv beta iota in H.
  destruct (negb _ || negb _); [by injection H as _ <-|].
  unfold mbind at 1, M_bind, get_self in H. cbv beta iota in H.
  destruct (String.eqb _ _); [by injection H as _ <-|].
  unfold mbind at 1, M_bind in H.
  destruct (strip_prefix_only_writes body w) as [Hself Hsent].
  destruct (strip_prefix body w) as [[[]|e] w1]; cbn [snd] in *;
    [|injection H as _ <-; rewrite Hself, Hsent; exact Hstay].
  unfold mbind at 1, M_bind, dict_getitem in H.
  destruct ((heap w1 !!! body) !! "model") as [model_name|];
    [|injection H as _ <-; rewrite Hself, Hsent; exact Hstay].
  unfold mbind at 1, M_bind in H.
  assert (exists gets,
            sent (_fetch_models_once transport w1).2 = sent w ++ gets /\
            ((gets = [] /\ self (_fetch_models_once transport w1).2 = self w) \/
             (_model_cache (self w) = None /\ gets = [models_request (self w)] /\
              self (_fetch_models_once transport w1).2 = populated w transport)))
    as (gets & Hgets & Hcase).
  { destruct (fetch_world w1) as [->|[Hnone ->]].
    - exists []. rewrite app_nil_r. auto.
    - exists [models_request (self w)]. rewrite Hself in Hnone.
      unfold populated. simpl. rewrite Hself, Hsent. auto. }
  destruct (_fetch_models_once transport w1) as [[allowed|e] w2]; cbn [snd] in *.
  2: { injection H as _ <-. exists gets, []. rewrite app_nil_r. auto. }
  destruct (negb _).
  - unfold mbind, M_bind, lift, mret, M_ret in H.
    exists gets, []. rewrite app_nil_r.
    destruct (Py.join ", " allowed); injection H as _ <-; auto.
  - apply (f_equal snd) in H. cbn [snd] in H. subst w'.
    destruct (perform_request_world transport (self w) body w2)
      as [->|(stream & _ & ->)].
    + exists gets, []. rewrite app_nil_r. auto.
    + exists gets, [chat_request (self w) (heap w2 !!! body) stream].
      cbn [sent self with_sent]. rewrite Hgets, <- app_assoc.
      split; [done|]. split; [exact Hcase|]. right. eauto.
Qed.

(** X9: one call of [pipe], on any body, sends at most two requests and
    never repeats one: at most one GET of the model list, sent first and
    only when the cache is empty, then at most one POST of a chat
    completion. *)
Theorem pipe_sends_each_request_once (body : ref) (w : world) :
  let w' := (pipe transport repr body w).2 in
  exists gets posts,
    sent w' = sent w ++ gets ++ posts /\
    (gets = [] \/
     (_model_cache (self w) = None /\ gets = [models_request (self w)])) /\
    (posts = [] \/
     exists payload stream, posts = [chat_request (self w) payload stream]) /\
    (length (sent w') <= length (sent w) + 2)%nat.
Proof.
  intros w'.
  destruct (pipe_world_of body w _ w' (surjective_pairing _))
    as (gets & posts & Hsent & Hgets & Hposts).
  exists gets, posts. split; [done|]. split; [|split; [done|]].
  - destruct Hgets as [[-> _]|(Hnone & -> & _)]; auto.
  - rewrite Hsent, !length_app.
    assert (length gets <= 1)%nat
      by (destruct Hgets as [[-> _]|(_ & -> & _)]; simpl; lia).
    assert (length posts <= 1)%nat
      by (destruct Hposts as [->|(? & ? & ->)]; simpl; lia).
    lia.
Qed.

(** ** The cache and the requests over the life of an adapter *)

Lemma exposed_withholds (models l : list pyval) :
  exposed models = Ok l -> withholds_excluded l.
Proof.
  revert l. induction models as [|m models IH]; intros l.
  - intros [= <-] id Hin. by apply elem_of_nil in Hin.
  - change (exposed (m :: models))
      with (rbind (rbind (py_any (fun x => Py.contains x m) EXCLUDE_SUBSTRINGS)
                         (fun b => Ok (negb b)))
                  (fun keep => rbind (exposed models)
                     (fun rest => Ok (if keep then m :: rest else rest)))).
    destruct (py_any _ _) as [excluded|e] eqn:Hany; [|done].
    destruct (exposed models) as [rest|e]; [|done].
    simpl. intros [= <-] id Hin. destruct excluded; simpl in Hin.
    + by apply (IH rest).
    + apply elem_of_cons in Hin as [<-|Hin]; [|by apply (IH rest)].
      simpl in Hany. unfold is_exposed.
      by destruct (Str.contains "tts" id), (Str.contains "whisper" id).
Qed.

Lemma resolved_withholds (o : outcome response) : withholds_excluded (resolved o).
Proof.
  assert (withholds_excluded fallback) as Hfb
    by (apply (exposed_withholds fallback), exposed_fallback).
  destruct o as [r|msg]; [|exact Hfb]. simpl.
  destruct (listed_models r) as [l|e] eqn:E; [|exact Hfb].
  unfold listed_models in E.
  destruct (raise_for_status r); [done|]. destruct (json r) as [v|]; [|done].
  simpl in E. destruct (Py.get v "data" (PyList [])) as [data|]; [|done].
  simpl in E. destruct (Py.iter data) as [entries|]; [|done].
  simpl in E. destruct (rmap _ entries) as [remote_models|]; [|done].
  by apply (exposed_withholds remote_models).
Qed.

Lemma pipes_run (w : world) :
  pipes transport w
  = (match (_fetch_models_once transport w).1 with
     | Ok l => Ok (items l)
     | Raise e => Raise e
     end, (_fetch_models_once transport w).2).
Proof.
  unfold pipes, mbind, M_bind.
  by destruct (_fetch_models_once transport w) as [[l|e] w1].
Qed.

Lemma well_addressed_same (key : string) (w w' : world) :
  self w' = self w -> sent w' = sent w ->
  well_addressed key w -> well_addressed key w'.
Proof. intros Hs Ht. unfold well_addressed. by rewrite Hs, Ht. Qed.

Lemma well_addressed_fetch (key : string) (w : world) :
  well_addressed key w -> well_addressed key (_fetch_models_once transport w).2.
Proof.
  intros (Hcfg & Hcache & Hsent).
  destruct (fetch_world w) as [->|[Hnone ->]]; [done|].
  split; [exact Hcfg|]. split.
  - intros l [= <-]. apply resolved_withholds.
  - intros rq [Hin|Hin]%elem_of_app; [by apply Hsent|].
    apply list_elem_of_singleton in Hin as ->. left.
    destruct Hcfg as [Hurl Hkey]. unfold models_request, bearer.
    by rewrite Hurl, Hkey.
Qed.

Lemma well_addressed_pipe (key : string) (body : ref) (w : world) :
  well_addressed key w -> well_addressed key (pipe transport repr body w).2.
Proof.
  intros (Hcfg & Hcache & Hsent).
  destruct (pipe_world_of body w _ _ (surjective_pairing _))
    as (gets & posts & Hs & Hgets & Hposts).
  assert (forall rq, rq ∈ gets ++ posts -> groq_request key rq) as Hnew.
  { destruct Hcfg as [Hurl Hkey].
    intros rq [Hin|Hin]%elem_of_app.
    - destruct Hgets as [[-> _]|(_ & -> & _)]; [by apply elem_of_nil in Hin|].
      apply list_elem_of_singleton in Hin as ->. left.
      unfold models_request, bearer. by rewrite Hurl, Hkey.
    - destruct Hposts as [->|(payload & stream & ->)]; [by apply elem_of_nil in Hin|].
      apply list_elem_of_singleton in Hin as ->. right.
      exists payload, (Py.truthy stream).
      unfold chat_request, chat_url, chat_headers, bearer. by rewrite Hurl, Hkey. }
  split; [|split].
  - destruct Hgets as [[_ ->]|(_ & _ & ->)]; exact Hcfg.
  - destruct Hgets as [[_ ->]|(_ & _ & ->)]; [exact Hcache|].
    intros l [= <-]. apply resolved_withholds.
  - intros rq. rewrite Hs. intros [Hin|Hin]%elem_of_app; [by apply Hsent|].
    by apply Hnew.
Qed.

Lemma well_addressed_run (key : string) (cs : list call) (w : world) :
  well_addressed key w -> well_addressed key (run transport repr cs w).
Proof.
  revert w. induction cs as [|c cs IH]; intros w Hw; [done|].
  simpl. apply IH. destruct c as [|body| |body d]; simpl.
  - rewrite pipes_run. by apply well_addressed_fetch.
  - by apply well_addressed_pipe.
  - by apply well_addressed_fetch.
  - by apply (well_addressed_same key w).
Qed.

Lemma well_addressed_fresh (key : string) (h : gmap ref dict) :
  well_addressed key (fresh key h).
Proof.
  split; [done|]. split; [done|]. intros rq Hin. by apply elem_of_nil in Hin.
Qed.

(** X7: whatever the provider answers and whatever calls are made, every
    model id (a string) in the cache of an adapter contains neither ["tts"]
    nor ["whisper"]. *)
Theorem cache_never_holds_excluded_model (key : string) (h : gmap ref dict)
    (cs : list call) (l : list pyval) (id : string) :
  _model_cache (self (run transport repr cs (fresh key h))) = Some l ->
  PyStr id ∈ l ->
  ~ occurs "tts" id /\ ~ occurs "whisper" id.
Proof.
  intros Hc Hin.
  destruct (well_addressed_run key cs _ (well_addressed_fresh key h))
    as (_ & Hcache & _).
  apply is_exposed_spec. by apply (Hcache l).
Qed.

(** X8: every request an adapter ever sends is the GET of
    [API_BASE_URL/models] or a POST to [API_BASE_URL/chat/completions],
    with the bearer token of its API key (and the JSON content type on the
    POST) and the timeout of 60 seconds. *)
Theorem adapter_sends_only_groq_requests (key : string) (h : gmap ref dict)
    (cs : list call) (rq : request) :
  rq ∈ sent (run transport repr cs (fresh key h)) -> groq_request key rq.
Proof.
  intros Hin.
  destruct (well_addressed_run key cs _ (well_addressed_fresh key h))
    as (_ & _ & Hsent).
  by apply Hsent.
Qed.

(** X5: [_fetch_models_once] never raises, and what it returns is
    memoized for good: calling it again on the world it leaves, over any
    network (also one that has recovered after a failed first fetch),
    returns the same list and changes nothing. *)
Theorem fetch_is_memoized (w : world)
    (later : list request -> request -> outcome response) :
  let first := _fetch_models_once transport w in
  exists l,
    first.1 = Ok l /\
    _model_cache (self first.2) = Some l /\
    _fetch_models_once later first.2 = (Ok l, first.2).
Proof.
  intros first. destruct (fetch_returns transport w) as (l & Hl & Hc).
  exists l. split; [done|]. split; [done|]. by apply fetch_cached.
Qed.

(** X6: [pipes] never raises and checks no credential: it returns one
    [{id, name}] item per model of the resolved list, in order, with the
    name equal to the id; it leaves the world as [_fetch_models_once] does,
    so that with an empty cache it sends the GET of the model list whatever
    the API key is, and with a populated cache it sends nothing. *)
Theorem pipes_lists_resolved_models (w : world) :
  exists l,
    (_fetch_models_once transport w).1 = Ok l /\
    pipes transport w = (Ok (items l), (_fetch_models_once transport w).2) /\
    length (items l) = length l /\
    (forall i m, l !! i = Some m <-> items l !! i = Some [("id", m); ("name", m)]) /\
    sent (pipes transport w).2
    = sent w ++ match _model_cache (self w) with
                | None => [models_request (self w)]
                | Some _ => []
                end.
Proof.
  destruct (fetch_returns transport w) as (l & Hl & _).
  exists l. rewrite pipes_run, Hl. split; [done|]. split; [done|].
  split; [apply length_fmap|]. split.
  - intros i m. unfold items. rewrite list_lookup_fmap.
    destruct (l !! i) as [m'|]; simpl; [|done].
    split; [by intros [= ->]|]. by intros [= ->].
  - cbn [snd]. destruct (_model_cache (self w)) as [c|] eqn:E.
    + by rewrite (fetch_cached transport w c E), app_nil_r.
    + by rewrite (fetch_uncached transport w E).
Qed.

(** X1: on a body that has both keys, when the API key is empty [pipe]
    returns the message that names [GROQ_API_KEY] and leaves the world as it
    is: no request is sent, the model list is not fetched and the model id
    is not stripped. *)
Theorem pipe_requires_credential (body : ref) (w : world) :
  is_Some ((heap w !!! body) !! "model") ->
  is_Some ((heap w !!! body) !! "stream") ->
  API_KEY (self w) = "" ->
  pipe transport repr body w = (Ok (Message credential_message), w) /\
  Str.contains "GROQ_API_KEY" credential_message = true.
Proof.
  intros Hm Hs Hk. split; [by apply pipe_no_key|by vm_compute].
Qed.

(** ** The request and the reply of an accepted call *)

Lemma perform_request_run (this : Pipe) (body : ref) (w : world) (stream : pyval) :
  (heap w !!! body) !! "stream" = Some stream ->
  perform_request transport this body w
  = (match transport (sent w) (chat_request this (heap w !!! body) stream) with
     | Failed exc => Ok (Message ("Unhandled error: " +:+ exc))
     | Returned r =>
         match raise_for_status r with
         | Some exc =>
             match text r with
             | Failed e => Raise (RequestException e)
             | Returned body_text =>
                 let msg := "HTTP " +:+ pretty (status_code r) +:+ " calling "
                            +:+ chat_url this +:+ ": " +:+ exc +:+ Str.nl
                            +:+ body_text in
                 Ok (Message (if status_code r =? 404
                              then msg +:+ Str.nl +:+ hint_404 else msg))
             end
         | None =>
             if Py.truthy stream then Ok (Lines (iter_lines r))
             else match json r with
                  | Returned v => Ok (Json v)
                  | Failed exc => Ok (Message ("Unhandled error: " +:+ exc))
                  end
         end
     end, with_sent (chat_request this (heap w !!! body) stream) w).
Proof.
  intros Hs. unfold perform_request, session_send. run_m. rewrite Hs.
  fold (chat_url this). fold (chat_request this (heap w !!! body) stream).
  destruct (transport _ _) as [r|msg]; [|done].
  destruct (raise_for_status r); [by destruct (text r)|].
  simpl. rewrite Hs.
  destruct (Py.truthy stream); [done|]. by destruct (json r).
Qed.

(** An accepted call is the request part run after the fetch. *)
Lemma pipe_accepted (body : ref) (w : world) (m : string) (stream : pyval)
    (allowed : list pyval) :
  (heap w !!! body) !! "model" = Some (PyStr m) ->
  (heap w !!! body) !! "stream" = Some stream ->
  API_KEY (self w) <> "" ->
  (_fetch_models_once transport w).1 = Ok allowed ->
  Py.list_contains allowed (PyStr (normalized m)) = true ->
  let payload := <["model" := PyStr (normalized m)]> (heap w !!! body) in
  let w2 := with_dict body payload (_fetch_models_once transport w).2 in
  pipe transport repr body w = perform_request transport (self w) body w2 /\
  heap w2 !!! body = payload /\
  payload !! "stream" = Some stream.
Proof.
  intros Hm Hs Hk Hallowed Hin payload w2. split; [|split].
  - rewrite (pipe_str transport repr body w m stream Hm Hs Hk).
    by rewrite fetch_with_dict, Hallowed, Hin.
  - unfold w2. simpl. by rewrite lookup_total_insert_eq.
  - unfold payload. by rewrite lookup_insert_ne.
Qed.

Lemma pipe_sends_chat_request_sent (body : ref) (w : world) (m : string)
    (stream : pyval) (allowed : list pyval) :
  (heap w !!! body) !! "model" = Some (PyStr m) ->
  (heap w !!! body) !! "stream" = Some stream ->
  API_KEY (self w) <> "" ->
  (_fetch_models_once transport w).1 = Ok allowed ->
  Py.list_contains allowed (PyStr (normalized m)) = true ->
  sent (pipe transport repr body w).2
  = sent (_fetch_models_once transport w).2
    ++ [chat_request (self w)
          (<["model" := PyStr (normalized m)]> (heap w !!! body)) stream].
Proof.
  intros Hm Hs Hk Hallowed Hin.
  destruct (pipe_accepted body w m stream allowed Hm Hs Hk Hallowed Hin)
    as (-> & Hheap & Hstream).
  rewrite <- Hheap in Hstream.
  rewrite (perform_request_run _ _ _ stream Hstream). cbn [snd]. by rewrite Hheap.
Qed.

(** C9: for every key of the request body other than ["model"], [pipe]
    leaves the value of the key as it is in the caller's mapping (absent
    keys stay absent), whatever it returns or raises; every POST it sends
    carries that value under that key; and an accepted call (the body
    passes the two guards and the normalized id is in the allow-list) does
    send the POST, whose JSON is the body as given but for the normalized
    ["model"], so with the value of the key exactly as given. *)
Theorem pipe_passes_fields_through (body : ref) (w : world) (k : string) :
  k <> "model" ->
  let w' := (pipe transport repr body w).2 in
  (heap w' !!! body) !! k = (heap w !!! body) !! k /\
  (forall url payload headers stream timeout,
     POST url payload headers stream timeout ∈ sent w' ->
     POST url payload headers stream timeout ∈ sent w \/
     payload !! k = (heap w !!! body) !! k) /\
  forall (m : string) (stream : pyval) (allowed : list pyval),
    (heap w !!! body) !! "model" = Some (PyStr m) ->
    (heap w !!! body) !! "stream" = Some stream ->
    API_KEY (self w) <> "" ->
    (_fetch_models_once transport w).1 = Ok allowed ->
    Py.list_contains allowed (PyStr (normalized m)) = true ->
    let payload := <["model" := PyStr (normalized m)]> (heap w !!! body) in
    sent w'
    = sent (_fetch_models_once transport w).2
      ++ [POST (base_url (self w) +:+ "/chat/completions") payload
               (chat_headers (API_KEY (self w))) (Py.truthy stream)
               REQUEST_TIMEOUT] /\
    payload !! k = (heap w !!! body) !! k.
Proof.
  intros Hk w'.
  destruct (pipe_passes_through transport repr body w)
    as (Hkeys & _ & new & Hsent & Hnew).
  split; [by apply Hkeys|]. split.
  - intros u j h s t Hin. fold w' in Hsent. rewrite Hsent in Hin.
    apply elem_of_app in Hin as [Hin|Hin]; [by left|right].
    by eapply Hnew.
  - intros m stream allowed Hm Hs Hkey Hallowed Hin payload. split.
    + unfold w'.
      by rewrite (pipe_sends_chat_request_sent body w m stream allowed
                    Hm Hs Hkey Hallowed Hin).
    + unfold payload. by rewrite lookup_insert_ne.
Qed.

(** X2: when the normalized id is in the allow-list, [pipe] sends, after
    the fetch, exactly one request: the POST to [base_url/chat/completions]
    whose JSON is the whole body with the normalized id, with the bearer
    token and the JSON content type, streaming exactly when
    [body["stream"]] is truthy, with the timeout of 60 seconds. *)
Theorem pipe_sends_chat_request (body : ref) (w : world) (m : string)
    (stream : pyval) (allowed : list pyval) :
  (heap w !!! body) !! "model" = Some (PyStr m) ->
  (heap w !!! body) !! "stream" = Some stream ->
  API_KEY (self w) <> "" ->
  (_fetch_models_once transport w).1 = Ok allowed ->
  Py.list_contains allowed (PyStr (normalized m)) = true ->
  sent (pipe transport repr body w).2
  = sent (_fetch_models_once transport w).2
    ++ [POST (base_url (self w) +:+ "/chat/completions")
             (<["model" := PyStr (normalized m)]> (heap w !!! body))
             [("Authorization", "Bearer " +:+ API_KEY (self w));
              ("Content-Type", "application/json")]
             (Py.truthy stream) 60].
Proof.
  intros Hm Hs Hk Hallowed Hin.
  by rewrite (pipe_sends_chat_request_sent body w m stream allowed Hm Hs Hk Hallowed Hin).
Qed.

(** X3: when the POST is answered with a status that is no error status,
    [pipe] returns the iterator over the lines of the response if
    [body["stream"]] is truthy (the body is not decoded), and otherwise the
    decoded JSON body, or the message ["Unhandled error: ..."] with the
    decoder's text when the body does not decode. *)
Theorem pipe_returns_response (body : ref) (w : world) (m : string)
    (stream : pyval) (allowed : list pyval) (r : response) :
  (heap w !!! body) !! "model" = Some (PyStr m) ->
  (heap w !!! body) !! "stream" = Some stream ->
  API_KEY (self w) <> "" ->
  (_fetch_models_once transport w).1 = Ok allowed ->
  Py.list_contains allowed (PyStr (normalized m)) = true ->
  transport (sent (_fetch_models_once transport w).2)
            (chat_request (self w)
               (<["model" := PyStr (normalized m)]> (heap w !!! body)) stream)
  = Returned r ->
  ~ (400 <= status_code r < 600) ->
  (pipe transport repr body w).1
  = if Py.truthy stream then Ok (Lines (iter_lines r))
    else match json r with
         | Returned v => Ok (Json v)
         | Failed exc => Ok (Message ("Unhandled error: " +:+ exc))
         end.
Proof.
  intros Hm Hs Hk Hallowed Hin Hpost Hst.
  destruct (pipe_accepted body w m stream allowed Hm Hs Hk Hallowed Hin)
    as (-> & Hheap & Hstream).
  rewrite <- Hheap in Hstream.
  rewrite (perform_request_run _ _ _ stream Hstream). cbn [fst].
  rewrite Hheap. simpl sent. rewrite Hpost.
  by rewrite (raise_for_status_None r Hst).
Qed.

(** X4: when the POST itself raises (connection refused, timeout, ...),
    [pipe] returns the message ["Unhandled error: ..."] with the text of the
    exception; the request is not sent again, and the caller's body keeps
    the normalized id. *)
Theorem pipe_reports_transport_failure (body : ref) (w : world) (m : string)
    (stream : pyval) (allowed : list pyval) (exc : string) :
  (heap w !!! body) !! "model" = Some (PyStr m) ->
  (heap w !!! body) !! "stream" = Some stream ->
  API_KEY (self w) <> "" ->
  (_fetch_models_once transport w).1 = Ok allowed ->
  Py.list_contains allowed (PyStr (normalized m)) = true ->
  transport (sent (_fetch_models_once transport w).2)
            (chat_request (self w)
               (<["model" := PyStr (normalized m)]> (heap w !!! body)) stream)
  = Failed exc ->
  (pipe transport repr body w).1 = Ok (Message ("Unhandled error: " +:+ exc)) /\
  length (posts (pipe transport repr body w).2) = S (length (posts w)) /\
  (heap (pipe transport repr body w).2 !!! body) !! "model"
  = Some (PyStr (normalized m)).
Proof.
  intros Hm Hs Hk Hallowed Hin Hpost.
  split; [|split].
  - destruct (pipe_accepted body w m stream allowed Hm Hs Hk Hallowed Hin)
      as (-> & Hheap & Hstream).
    rewrite <- Hheap in Hstream.
    rewrite (perform_request_run _ _ _ stream Hstream). cbn [fst].
    rewrite Hheap. simpl sent. by rewrite Hpost.
  - unfold posts.
    rewrite (pipe_sends_chat_request_sent body w m stream allowed Hm Hs Hk Hallowed Hin).
    rewrite List.filter_app, length_app. simpl.
    fold (posts (_fetch_models_once transport w).2).
    rewrite (fetch_posts transport w). unfold posts. lia.
  - rewrite (pipe_str_heap transport repr body w m stream Hm Hs Hk).
    by rewrite lookup_total_insert_eq, lookup_insert_eq.
Qed.

(** ** The caller's dict over one call and over two *)

Lemma pipe_keeps_key (body : ref) (w : world) :
  API_KEY (self (pipe transport repr body w).2) = API_KEY (self w).
Proof.
  destruct (pipe_world_of body w _ _ (surjective_pairing _))
    as (gets & posts & _ & Hgets & _).
  by destruct Hgets as [[_ ->]|(_ & _ & ->)].
Qed.

(** X10: the stripping is applied anew on every call.  For an id
    [a.b.c] with no dot in [a] and [b], on a body that passes validation,
    one call of [pipe] leaves [b.c] in the caller's dict and a second call
    on the same dict leaves [c]. *)
Theorem repeated_pipe_strips_again (body : ref) (w : world) (a b c : string)
    (stream : pyval) :
  (heap w !!! body) !! "model" = Some (PyStr (a +:+ "." +:+ b +:+ "." +:+ c)) ->
  (heap w !!! body) !! "stream" = Some stream ->
  API_KEY (self w) <> "" ->
  Str.contains "." a = false ->
  Str.contains "." b = false ->
  let w1 := (pipe transport repr body w).2 in
  let w2 := run transport repr [CallPipe body; CallPipe body] w in
  (heap w1 !!! body) !! "model" = Some (PyStr (b +:+ "." +:+ c)) /\
  (heap w2 !!! body) !! "model" = Some (PyStr c).
Proof.
  intros Hm Hs Hk Ha Hb w1 w2.
  assert (heap w1
          = <[body := <["model" := PyStr (b +:+ "." +:+ c)]> (heap w !!! body)]>
              (heap w)) as Hh1.
  { unfold w1. rewrite (pipe_str_heap transport repr body w _ stream Hm Hs Hk).
    by rewrite (normalized_dotted _ a (b +:+ "." +:+ c)). }
  assert ((heap w1 !!! body) !! "model" = Some (PyStr (b +:+ "." +:+ c))) as Hm1
    by (by rewrite Hh1, lookup_total_insert_eq, lookup_insert_eq).
  assert ((heap w1 !!! body) !! "stream" = Some stream) as Hs1
    by (by rewrite Hh1, lookup_total_insert_eq, lookup_insert_ne).
  assert (API_KEY (self w1) <> "") as Hk1 by (unfold w1; by rewrite pipe_keeps_key).
  split; [exact Hm1|].
  change w2 with (pipe transport repr body w1).2.
  rewrite (pipe_str_heap transport repr body w1 _ stream Hm1 Hs1 Hk1).
  rewrite (normalized_dotted _ b c) by done.
  by rewrite lookup_total_insert_eq, lookup_insert_eq.
Qed.

(** X11: every id that [pipes] lists is accepted by [pipe] behind a
    prefix.  When [pipes] lists the string [id] and the body asks for
    [prefix.id] with no dot in [prefix], [pipe] does not reject the model:
    it sends the POST, whose JSON carries [id] as the model, and [id] is
    what the caller's dict holds afterwards. *)
Theorem pipe_accepts_listed_model_behind_prefix (body : ref) (w : world)
    (prefix id : string) (stream : pyval) (listed : list (list (string * pyval))) :
  (pipes transport w).1 = Ok listed ->
  [("id", PyStr id); ("name", PyStr id)] ∈ listed ->
  (heap w !!! body) !! "model" = Some (PyStr (prefix +:+ "." +:+ id)) ->
  (heap w !!! body) !! "stream" = Some stream ->
  API_KEY (self w) <> "" ->
  Str.contains "." prefix = false ->
  sent (pipe transport repr body w).2
  = sent (_fetch_models_once transport w).2
    ++ [chat_request (self w) (<["model" := PyStr id]> (heap w !!! body)) stream] /\
  (heap (pipe transport repr body w).2 !!! body) !! "model" = Some (PyStr id).
Proof.
  intros Hpipes Hlisted Hm Hs Hk Hprefix.
  destruct (fetch_returns transport w) as (l & Hl & _).
  rewrite pipes_run, Hl in Hpipes. injection Hpipes as <-.
  apply list_elem_of_fmap in Hlisted as (m & [= <-] & Hin).
  assert (normalized (prefix +:+ "." +:+ id) = id) as Hn
    by (by apply (normalized_dotted _ prefix id)).
  assert (Py.list_contains l (PyStr (normalized (prefix +:+ "." +:+ id))) = true)
    as Hc.
  { rewrite Hn. apply existsb_exists. exists (PyStr id).
    split; [by apply list_elem_of_In|]. simpl. apply String.eqb_refl. }
  split.
  - rewrite (pipe_sends_chat_request_sent body w _ stream l Hm Hs Hk Hl Hc).
    by rewrite Hn.
  - rewrite (pipe_str_heap transport repr body w _ stream Hm Hs Hk), Hn.
    by rewrite lookup_total_insert_eq, lookup_insert_eq.
Qed.

Lemma strip_prefix_keeps_keys (body : ref) :
  preserves (keeps_keys body) (strip_prefix body).
Proof.
  intros w. unfold strip_prefix. run_m.
  destruct ((heap w !!! body) !! "model") as [m|] eqn:Hm; [|done].
  destruct (Py.contains "." m) as [[|]|]; [|done..].
  rewrite Hm. destruct (Py.split_dot_1 m) as [parts|]; [|done].
  cbv beta iota. destruct (Py.index parts 1) as [tail|]; [|done].
  cbv beta iota. cbn [snd]. split; simpl.
  - apply delete_insert_eq.
  - rewrite lookup_total_insert_eq, dom_insert_L.
    apply subseteq_union_1_L, singleton_subseteq_l, elem_of_dom. eauto.
Qed.

Lemma keeps_keys_same_heap (body : ref) (w w' : world) :
  heap w' = heap w -> keeps_keys body w w'.
Proof. intros H. unfold keeps_keys. by rewrite H. Qed.

(** X12: whatever the body holds and however the call ends, [pipe] adds no
    key to the caller's dict and removes none, and leaves every other dict
    object as it is. *)
Theorem pipe_keeps_keys_and_other_dicts (body : ref) (w : world) :
  let w' := (pipe transport repr body w).2 in
  delete body (heap w') = delete body (heap w) /\
  (dom (heap w' !!! body) : gset string) = dom (heap w !!! body).
Proof.
  assert (preserves (keeps_keys body) (_fetch_models_once transport)) as Hfetch
    by (intros w0; apply keeps_keys_same_heap, fetch_heap).
  assert (forall this, preserves (keeps_keys body)
                                 (perform_request transport this body)) as Hreq.
  { intros this w0. apply keeps_keys_same_heap.
    by destruct (perform_request_only_posts transport this body w0) as (_ & ? & _). }
  assert (preserves (keeps_keys body) (pipe transport repr body)) as H.
  { unfold pipe.
    repeat first [apply strip_prefix_keeps_keys | apply Hfetch | apply Hreq
                 | preserve_step]. }
  apply H.
Qed.

End Further.

(** ** The further properties on sample inputs *)

(** The demo request on an adapter without a key. *)
Lemma pipe_requires_credential_witness :
  let w := fresh "" {[ Sample.body := Sample.demo_request ]} in
  API_KEY (self w) = "" /\
  pipe Sample.offline Sample.repr Sample.body w
  = (Ok (Message credential_message), w).
Proof.
  intros w.
  assert (is_Some ((heap w !!! Sample.body) !! "model")) as Hm
    by (eexists; vm_compute; reflexivity).
  assert (is_Some ((heap w !!! Sample.body) !! "stream")) as Hs
    by (eexists; vm_compute; reflexivity).
  split; [reflexivity|].
  apply (pipe_requires_credential Sample.offline Sample.repr Sample.body w Hm Hs eq_refl).
Defined.

(** A prefixed request for the cached model, served with a completion. *)
Lemma pipe_sends_chat_request_witness :
  let w := Sample.cached (Sample.request_for (PyStr "groq.llama3-8b-8192")) in
  let transport := Sample.serving Sample.completion in
  Py.list_contains [PyStr "llama3-8b-8192"]
                   (PyStr (normalized "groq.llama3-8b-8192")) = true /\
  sent (pipe transport Sample.repr Sample.body w).2
  = [POST "https://api.groq.com/openai/v1/chat/completions"
          (<["model" := PyStr "llama3-8b-8192"]>
             (Sample.request_for (PyStr "groq.llama3-8b-8192")))
          [("Authorization", "Bearer gsk_demo");
           ("Content-Type", "application/json")] false 60].
Proof.
  intros w transport.
  assert ((heap w !!! Sample.body) !! "model" = Some (PyStr "groq.llama3-8b-8192"))
    as Hm by (vm_compute; reflexivity).
  assert ((heap w !!! Sample.body) !! "stream" = Some (PyBool false)) as Hs
    by (vm_compute; reflexivity).
  assert (API_KEY (self w) <> "") as Hk by discriminate.
  assert ((_fetch_models_once transport w).1 = Ok [PyStr "llama3-8b-8192"]) as Ha
    by reflexivity.
  assert (Py.list_contains [PyStr "llama3-8b-8192"]
            (PyStr (normalized "groq.llama3-8b-8192")) = true) as Hin
    by (vm_compute; reflexivity).
  split; [exact Hin|].
  rewrite (pipe_sends_chat_request transport Sample.repr Sample.body w
             _ _ _ Hm Hs Hk Ha Hin).
  vm_compute. reflexivity.
Defined.

Lemma pipe_returns_response_witness :
  let w := Sample.cached (Sample.request_for (PyStr "groq.llama3-8b-8192")) in
  let transport := Sample.serving Sample.completion in
  status_code Sample.completion = 200 /\
  (pipe transport Sample.repr Sample.body w).1
  = Ok (Json (PyDict [("id", PyStr "x")])).
Proof.
  intros w transport.
  assert ((heap w !!! Sample.body) !! "model" = Some (PyStr "groq.llama3-8b-8192"))
    as Hm by (vm_compute; reflexivity).
  assert ((heap w !!! Sample.body) !! "stream" = Some (PyBool false)) as Hs
    by (vm_compute; reflexivity).
  assert (API_KEY (self w) <> "") as Hk by discriminate.
  assert ((_fetch_models_once transport w).1 = Ok [PyStr "llama3-8b-8192"]) as Ha
    by reflexivity.
  assert (Py.list_contains [PyStr "llama3-8b-8192"]
            (PyStr (normalized "groq.llama3-8b-8192")) = true) as Hin
    by (vm_compute; reflexivity).
  split; [reflexivity|].
  rewrite (pipe_returns_response transport Sample.repr Sample.body w
             _ _ _ Sample.completion Hm Hs Hk Ha Hin eq_refl ltac:(simpl; lia)).
  reflexivity.
Defined.

(** The same request with no network. *)
Lemma pipe_reports_transport_failure_witness :
  let w := Sample.cached (Sample.request_for (PyStr "groq.llama3-8b-8192")) in
  (pipe Sample.offline Sample.repr Sample.body w).1
  = Ok (Message "Unhandled error: Connection refused") /\
  length (posts (pipe Sample.offline Sample.repr Sample.body w).2) = 1%nat.
Proof.
  intros w.
  assert ((heap w !!! Sample.body) !! "model" = Some (PyStr "groq.llama3-8b-8192"))
    as Hm by (vm_compute; reflexivity).
  assert ((heap w !!! Sample.body) !! "stream" = Some (PyBool false)) as Hs
    by (vm_compute; reflexivity).
  assert (API_KEY (self w) <> "") as Hk by discriminate.
  assert ((_fetch_models_once Sample.offline w).1 = Ok [PyStr "llama3-8b-8192"])
    as Ha by reflexivity.
  assert (Py.list_contains [PyStr "llama3-8b-8192"]
            (PyStr (normalized "groq.llama3-8b-8192")) = true) as Hin
    by (vm_compute; reflexivity).
  destruct (pipe_reports_transport_failure Sample.offline Sample.repr Sample.body w
              _ _ _ "Connection refused" Hm Hs Hk Ha Hin eq_refl)
    as (Hr & Hp & _).
  split; [exact Hr|exact Hp].
Defined.

(** The cache after the listing of [Sample.remote_ids]: the upper-case id
    is kept and contains no ["tts"]. *)
Lemma cache_never_holds_excluded_model_witness :
  let transport := Sample.serving Sample.completion in
  let w := run transport Sample.repr [CallPipes] (fresh Sample.key ∅) in
  _model_cache (self w)
  = Some [PyStr "llama3-8b-8192"; PyStr "TTS-upper"; PyStr "qwen/qwen3-32b"] /\
  ~ occurs "tts" "TTS-upper".
Proof.
  intros transport w.
  assert (_model_cache (self w)
          = Some [PyStr "llama3-8b-8192"; PyStr "TTS-upper"; PyStr "qwen/qwen3-32b"])
    as Hc by (vm_compute; reflexivity).
  split; [exact Hc|].
  apply (cache_never_holds_excluded_model transport Sample.repr Sample.key ∅
           [CallPipes] _ "TTS-upper" Hc).
  right. left.
Defined.

(** The one request of a first call of [pipes]. *)
Lemma adapter_sends_only_groq_requests_witness :
  let w := run Sample.offline Sample.repr [CallPipes] (fresh Sample.key ∅) in
  sent w = [GET "https://api.groq.com/openai/v1/models"
                [("Authorization", "Bearer gsk_demo")] 60] /\
  groq_request Sample.key
    (GET "https://api.groq.com/openai/v1/models"
         [("Authorization", "Bearer gsk_demo")] 60).
Proof.
  intros w.
  assert (sent w = [GET "https://api.groq.com/openai/v1/models"
                        [("Authorization", "Bearer gsk_demo")] 60]) as Hs
    by (vm_compute; reflexivity).
  split; [exact Hs|].
  apply (adapter_sends_only_groq_requests Sample.offline Sample.repr Sample.key ∅
           [CallPipes]).
  fold w. rewrite Hs. left.
Defined.

(** An id of the hard-coded list that has a dot of its own, behind the
    prefix: the first call strips the prefix, a second call on the same
    dict strips too much. *)
Lemma repeated_pipe_strips_again_witness :
  let w := Sample.calling Sample2.twice_dotted in
  let w1 := (pipe Sample.offline Sample.repr Sample.body w).2 in
  let w2 := run Sample.offline Sample.repr
                [CallPipe Sample.body; CallPipe Sample.body] w in
  (heap w1 !!! Sample.body) !! "model" = Some (PyStr "llama-3.1-8b-instant") /\
  (heap w2 !!! Sample.body) !! "model" = Some (PyStr "1-8b-instant").
Proof.
  intros w w1 w2.
  assert ((heap w !!! Sample.body) !! "model"
          = Some (PyStr ("groq" +:+ "." +:+ "llama-3" +:+ "." +:+ "1-8b-instant")))
    as Hm by (vm_compute; reflexivity).
  assert ((heap w !!! Sample.body) !! "stream" = Some (PyBool false)) as Hs
    by (vm_compute; reflexivity).
  assert (API_KEY (self w) <> "") as Hk by discriminate.
  apply (repeated_pipe_strips_again Sample.offline Sample.repr Sample.body w
           "groq" "llama-3" "1-8b-instant" (PyBool false) Hm Hs Hk eq_refl eq_refl).
Defined.

(** The demo request with no network: the model is in the fallback list
    that [pipes] shows, and the call goes through to the POST. *)
Lemma pipe_accepts_listed_model_behind_prefix_witness :
  let w := Sample.calling Sample.demo_request in
  (pipes Sample.offline w).1 = Ok (items fallback) /\
  posts (pipe Sample.offline Sample.repr Sample.body w).2
  = [chat_request (self w)
       (<["model" := PyStr "moonshotai/kimi-k2-instruct"]> Sample.demo_request)
       (PyBool false)].
Proof.
  intros w.
  assert ((pipes Sample.offline w).1 = Ok (items fallback)) as Hp
    by (vm_compute; reflexivity).
  assert ([("id", PyStr "moonshotai/kimi-k2-instruct");
           ("name", PyStr "moonshotai/kimi-k2-instruct")] ∈ items fallback) as Hl.
  { apply list_elem_of_In. vm_compute. do 17 right. left. reflexivity. }
  assert ((heap w !!! Sample.body) !! "model"
          = Some (PyStr ("groq_new" +:+ "." +:+ "moonshotai/kimi-k2-instruct")))
    as Hm by (vm_compute; reflexivity).
  assert ((heap w !!! Sample.body) !! "stream" = Some (PyBool false)) as Hs
    by (vm_compute; reflexivity).
  assert (API_KEY (self w) <> "") as Hk by discriminate.
  destruct (pipe_accepts_listed_model_behind_prefix Sample.offline Sample.repr
              Sample.body w "groq_new" "moonshotai/kimi-k2-instruct" (PyBool false)
              (items fallback) Hp Hl Hm Hs Hk eq_refl) as [Hsent _].
  split; [exact Hp|].
  unfold posts. rewrite Hsent. vm_compute. reflexivity.
Defined.

(** A listed id with a dot of its own, sent without a prefix, is checked
    under its stripped form and rejected. *)
Example pipe_rejects_bare_dotted_listed_id :
  let w := Sample.calling (Sample.request_for (PyStr "llama-3.1-8b-instant")) in
  PyStr "llama-3.1-8b-instant" ∈ fallback /\
  exists msg,
    (pipe Sample.offline Sample.repr Sample.body w).1 = Ok (Message msg) /\
    Str.contains "model '1-8b-instant' is not supported" msg = true.
Proof.
  intros w. split.
  - apply list_elem_of_In. vm_compute. do 5 right. left. reflexivity.
  - eexists. split; vm_compute; reflexivity.
Qed.

(** A network that is down for the first request only: the fallback cached
    by the failed fetch is what every later call gets, and no second GET is
    sent. *)
Example fallback_is_kept_after_recovery :
  let w := run Sample2.recovering Sample.repr [CallFetch; CallPipes; CallFetch]
               (fresh Sample.key ∅) in
  _model_cache (self w) = Some fallback /\ fetches w = 1%nat.
Proof. vm_compute. split; reflexivity. Qed.

(** A completion whose body is not JSON, asked for without streaming. *)
Example pipe_reports_undecodable_body :
  (pipe (Sample.serving Sample2.garbled) Sample.repr Sample.body
        (Sample.cached (Sample.request_for (PyStr "llama3-8b-8192")))).1
  = Ok (Message "Unhandled error: Expecting value: line 1 column 1 (char 0)").
Proof. vm_compute. reflexivity. Qed.

(** ** An accepted call and an unreadable error body, on sample inputs *)

(** The ["messages"] of a request for the cached model, through a call that
    is accepted and answered with a 404: the dict keeps them and the one
    POST sent carries them. *)
Lemma pipe_passes_fields_through_witness :
  let w := Sample.cached (Sample.request_for (PyStr "groq.llama3-8b-8192")) in
  let transport := Sample.serving Sample.not_found in
  let w' := (pipe transport Sample.repr Sample.body w).2 in
  let messages := PyList [PyDict [("role", PyStr "user"); ("content", PyStr "Hi")]] in
  "messages" <> "model" /\
  (heap w' !!! Sample.body) !! "messages" = Some messages /\
  exists payload,
    sent w' = [POST "https://api.groq.com/openai/v1/chat/completions" payload
                    [("Authorization", "Bearer gsk_demo");
                     ("Content-Type", "application/json")] false 60] /\
    payload !! "messages" = Some messages /\
    payload !! "model" = Some (PyStr "llama3-8b-8192").
Proof.
  intros w transport w' messages.
  assert ("messages" <> "model") as Hk by discriminate.
  assert ((heap w !!! Sample.body) !! "model" = Some (PyStr "groq.llama3-8b-8192"))
    as Hm by (vm_compute; reflexivity).
  assert ((heap w !!! Sample.body) !! "stream" = Some (PyBool false)) as Hs
    by (vm_compute; reflexivity).
  assert (API_KEY (self w) <> "") as Hkey by discriminate.
  assert ((_fetch_models_once transport w).1 = Ok [PyStr "llama3-8b-8192"]) as Ha
    by reflexivity.
  assert (Py.list_contains [PyStr "llama3-8b-8192"]
            (PyStr (normalized "groq.llama3-8b-8192")) = true) as Hin
    by (vm_compute; reflexivity).
  destruct (pipe_passes_fields_through transport Sample.repr Sample.body w
              "messages" Hk) as (Hkeep & _ & Hsends).
  destruct (Hsends _ _ _ Hm Hs Hkey Ha Hin) as [Hsent Hfield].
  split; [exact Hk|]. split.
  - unfold w'. rewrite Hkeep. vm_compute. reflexivity.
  - eexists. split; [exact Hsent|]. split.
    + rewrite Hfield. vm_compute. reflexivity.
    + vm_compute. reflexivity.
Defined.

(** C8, the code at the failing input: a streaming request for the cached
    model is answered with status 500 and the body cannot be read from the
    connection.  [raise_for_status] raises, the [HTTPError] clause reads
    [response.text] outside any [try], and the exception of that read
    leaves [pipe]: no message is returned. *)
Lemma pipe_raises_instead_of_reporting_http_error :
  let w := Sample.cached Sample.streaming_request in
  let transport := Sample.serving Sample.broken_stream in
  let sent_before := sent (_fetch_models_once transport w).2 in
  transport sent_before
            (chat_request (self w) Sample.streaming_request (PyBool true))
  = Returned Sample.broken_stream /\
  status_code Sample.broken_stream = 500 /\
  raise_for_status Sample.broken_stream
  = Some "500 Server Error: Internal Server Error for url: https://api.groq.com/openai/v1/chat/completions" /\
  (pipe transport Sample.repr Sample.body w).1
  = Raise (RequestException "Connection broken: IncompleteRead") /\
  forall msg, (pipe transport Sample.repr Sample.body w).1 <> Ok (Message msg).
Proof.
  intros w transport sent_before.
  assert ((pipe transport Sample.repr Sample.body w).1
          = Raise (RequestException "Connection broken: IncompleteRead")) as Hr
    by (vm_compute; reflexivity).
  split; [reflexivity|]. split; [reflexivity|].
  split; [vm_compute; reflexivity|]. split; [exact Hr|].
  intros msg. rewrite Hr. discriminate.
Qed.
